(** * The TF2 MNIST tutorial of cleverhans: a model of [tutorials/tf2/mnist_tutorial.py]

    The script is orchestration code: it builds a small convolutional
    network, trains it (optionally on adversarial examples) and measures its
    accuracy under seven attacks of the attack library.  Everything it calls
    (layers, autodiff, optimizer, metrics, datasets, attacks) is owned by
    TensorFlow and by the attack library; those collaborators are the fields
    of the class [Framework] below.  The script itself is embedded as a
    program in a state-and-trace monad: the state holds the mutable objects
    created by [main] (the model's variables, the optimizer slots, the nine
    metrics), and the trace records every call the script makes to a
    collaborator, in program order. *)

From Stdlib Require Import ZArith List PrimFloat.
From stdpp Require Import base list strings functions.

Set Warnings "-inexact-float".
Local Open Scope Z_scope.
Local Open Scope string_scope.
Local Open Scope list_scope.

(** ** Python values that occur as hyperparameters *)

Inductive PyVal : Type :=
| PyFloat (f : float)
| PyInt (n : Z)
| PyBool (b : bool).

(** [np.inf] is the IEEE double +infinity. *)
Definition np_inf : PyVal := PyFloat infinity.

(** What follows [model, x] in a call of an attack: the positional arguments
    in order, then the keyword arguments as written. *)
Record Args : Type := mkArgs {
  positional : list PyVal;
  keywords : list (string * PyVal)
}.

(** ** Command-line flags (lines 178-182) *)

Record Flags : Type := mkFlags {
  nb_epochs : Z;
  eps : float;
  adv_train : bool
}.

Definition default_flags : Flags :=
  {| nb_epochs := 8; eps := 0.3%float; adv_train := false |}.

(** ** Names imported from the attack library (lines 9-15) *)

Inductive AttackFn : Type :=
| projected_gradient_descent
| fast_gradient_method
| basic_iterative_method
| madry_et_al
| momentum_iterative_method
| carlini_wagner_l2
| carlini_wagner_l2_quantum.

Global Instance AttackFn_eq_dec : EqDecision AttackFn.
Proof. solve_decision. Defined.

(** ** The accuracy metrics created by [main] (lines 67-74) *)

Inductive Metric : Type :=
| test_acc_clean
| test_acc_fgsm
| test_acc_pgd
| test_acc_bim
| test_acc_mea
| test_acc_mim
| test_acc_cw
| test_acc_cw_quantum.

Global Instance Metric_eq_dec : EqDecision Metric.
Proof. solve_decision. Defined.

(** The two progress bars of [main]. *)
Inductive Bar : Type := progress_bar_train | progress_bar_test.

(** ** Keras layer constructors used by [Net.__init__] (lines 23-29) *)

Inductive Layer : Type :=
| Conv2D (filters kernel_size : Z) (strides : Z * Z)
         (activation : option string) (padding : string)
| Dropout (rate : float)
| Flatten
| Dense (units : Z) (activation : option string).

Inductive LayerKind : Type := KConv2D | KDropout | KFlatten | KDense.

Definition layer_kind (l : Layer) : LayerKind :=
  match l with
  | Conv2D _ _ _ _ _ => KConv2D
  | Dropout _ => KDropout
  | Flatten => KFlatten
  | Dense _ _ => KDense
  end.

(** [tf.losses.SparseCategoricalCrossentropy(from_logits=...)] and
    [tf.optimizers.Adam(learning_rate=...)]. *)
Inductive Loss : Type := SparseCategoricalCrossentropy (from_logits : bool).
Inductive Optimizer : Type := Adam (learning_rate : float).

(** ** The external collaborators *)

Class Framework : Type := {
  Tensor : Type;
  OptSlots : Type;          (* the optimizer's own state (moments, step) *)
  MeanState : Type;         (* state of a tf.metrics.Mean *)
  AccState : Type;          (* state of a SparseCategoricalAccuracy *)
  Dataset : Type;           (* a tf.data pipeline *)
  World : Type;             (* hidden framework state: random generators *)

  (* layers: attribute name, configuration, the model's variables, input *)
  layer_call : string -> Layer -> list Tensor -> Tensor -> Tensor;
  build_variables : World -> list Tensor * World;

  (* loss_object(y, predictions) *)
  loss_call : Loss -> Tensor -> Tensor -> Tensor;
  (* tape.gradient of a recorded computation with respect to its sources *)
  tape_gradient : (list Tensor -> Tensor) -> list Tensor -> list Tensor;
  (* optimizer.apply_gradients(grads_and_vars): new slots, new variable values *)
  apply_gradients :
    Optimizer -> OptSlots -> list (Tensor * Tensor) -> OptSlots * list Tensor;
  slots_init : OptSlots;

  mean_init : MeanState;
  mean_update : MeanState -> Tensor -> MeanState;
  mean_result : MeanState -> Tensor;
  acc_init : AccState;
  acc_update : AccState -> Tensor -> Tensor -> AccState;
  acc_result : AccState -> Tensor;

  shape0 : Tensor -> Z;                       (* x.shape[0] *)
  tensor_mul : Tensor -> PyVal -> Tensor;     (* t * 100 *)
  tensor_div : Tensor -> PyVal -> Tensor;     (* t / 255 *)
  cast_float32 : Tensor -> Tensor;
  format_3f : Tensor -> string;               (* "{:.3f}".format(t) *)

  tfds_load : string -> string -> bool -> bool -> string -> Dataset;
  ds_map : (Tensor * Tensor -> Tensor * Tensor) -> Dataset -> Dataset;
  ds_shuffle : Z -> Dataset -> Dataset;
  ds_batch : Z -> Dataset -> Dataset;
  (* one full pass over a dataset: the batches it yields, in order *)
  ds_iter : Dataset -> World -> list (Tensor * Tensor) * World;
}.

(** ** class Net (lines 20-38) *)

Section Network.

Context `{TF : Framework}.

Record Net : Type := mkNet {
  conv1 : Layer;
  conv2 : Layer;
  conv3 : Layer;
  dropout : Layer;
  flatten : Layer;
  dense1 : Layer;
  dense2 : Layer;
  trainable_variables : list Tensor
}.

(** [Net.__init__]; the variables are those the layers create when built. *)
Definition Net_init (vars : list Tensor) : Net :=
  {| conv1 := Conv2D 64 8 (2, 2) (Some "relu") "same";
     conv2 := Conv2D 128 6 (2, 2) (Some "relu") "valid";
     conv3 := Conv2D 128 5 (1, 1) (Some "relu") "valid";
     dropout := Dropout 0.25%float;
     flatten := Flatten;
     dense1 := Dense 128 (Some "relu");
     dense2 := Dense 10 None;
     trainable_variables := vars |}.

Definition set_variables (self : Net) (vars : list Tensor) : Net :=
  {| conv1 := conv1 self; conv2 := conv2 self; conv3 := conv3 self;
     dropout := dropout self; flatten := flatten self;
     dense1 := dense1 self; dense2 := dense2 self;
     trainable_variables := vars |}.

(** The layers in the order [Net.call] applies them. *)
Definition layers (self : Net) : list (string * Layer) :=
  [("conv1", conv1 self); ("conv2", conv2 self); ("conv3", conv3 self);
   ("dropout", dropout self); ("flatten", flatten self);
   ("dense1", dense1 self); ("dense2", dense2 self)].

(** [Net.call]. *)
Definition Net_call (self : Net) (x : Tensor) : Tensor :=
  let vars := trainable_variables self in
  let x := layer_call "conv1" (conv1 self) vars x in
  let x := layer_call "conv2" (conv2 self) vars x in
  let x := layer_call "conv3" (conv3 self) vars x in
  let x := layer_call "dropout" (dropout self) vars x in
  let x := layer_call "flatten" (flatten self) vars x in
  let x := layer_call "dense1" (dense1 self) vars x in
  layer_call "dense2" (dense2 self) vars x.

End Network.

(** ** The attack library (lines 9-15)

    An attack is called as [f(model, x, *args, **kwargs)]: it receives the
    [Net] object itself and may draw random numbers. *)
Class AttackLibrary `{TF : Framework} : Type := {
  attack : AttackFn -> Net -> Tensor -> Args -> World -> Tensor * World
}.

(** * The script *)

Section Tutorial.

Context `{TF : Framework} {AL : AttackLibrary}.

(** ** ld_mnist (lines 41-55) *)

Definition convert_types (ex : Tensor * Tensor) : Tensor * Tensor :=
  let '(image, label) := ex in
  let image := cast_float32 image in
  let image := tensor_div image (PyInt 255) in
  (image, label).

Record EasyDict : Type := mkData { train : Dataset; test : Dataset }.

Definition ld_mnist : EasyDict :=
  let dataset := tfds_load "mnist" "gs://tfds-data/datasets" true true in
  let mnist_train := dataset "train" in
  let mnist_test := dataset "test" in
  let mnist_train := ds_batch 128 (ds_shuffle 10000 (ds_map convert_types mnist_train)) in
  let mnist_test := ds_batch 128 (ds_map convert_types mnist_test) in
  {| train := mnist_train; test := mnist_test |}.

(** ** Program state: the mutable objects [main] creates (lines 61-74) *)

Record State : Type := mkState {
  model : Net;
  slots : OptSlots;
  train_loss : MeanState;
  test_acc : Metric -> AccState;
  world : World
}.

Definition loss_object : Loss := SparseCategoricalCrossentropy true.

Definition optimizer : Optimizer := Adam 0.001%float.

Definition set_model (m : Net) (s : State) : State :=
  {| model := m; slots := slots s; train_loss := train_loss s;
     test_acc := test_acc s; world := world s |}.

Definition set_slots (o : OptSlots) (s : State) : State :=
  {| model := model s; slots := o; train_loss := train_loss s;
     test_acc := test_acc s; world := world s |}.

Definition set_train_loss (m : MeanState) (s : State) : State :=
  {| model := model s; slots := slots s; train_loss := m;
     test_acc := test_acc s; world := world s |}.

Definition set_test_acc (f : Metric -> AccState) (s : State) : State :=
  {| model := model s; slots := slots s; train_loss := train_loss s;
     test_acc := f; world := world s |}.

Definition set_world (w : World) (s : State) : State :=
  {| model := model s; slots := slots s; train_loss := train_loss s;
     test_acc := test_acc s; world := w |}.

(** ** Calls to collaborators, as the trace records them *)

Inductive Event : Type :=
| EvModel (m : Net) (x : Tensor)                        (* model(x) *)
| EvAttack (f : AttackFn) (m : Net) (x : Tensor) (a : Args)
| EvApplyGradients (o : Optimizer) (grads_and_vars : list (Tensor * Tensor))
| EvTrainLoss (loss : Tensor)                           (* train_loss(loss) *)
| EvAccuracy (m : Metric) (y y_pred : Tensor)           (* test_acc_*(y, y_pred) *)
| EvIterate (d : Dataset)                               (* for ... in d *)
| EvProgbar (b : Bar) (target : Z)                      (* Progbar(target) *)
| EvProgbarAdd (b : Bar) (n : Z) (values : list (string * Tensor))
| EvPrint (line : string).

(** ** The monad: state passing plus an output trace *)

Record Res (A : Type) : Type := mkRes { val : A; st : State; tr : list Event }.

Arguments mkRes {A} _ _ _.
Arguments val {A} _.
Arguments st {A} _.
Arguments tr {A} _.

Definition M (A : Type) : Type := State -> Res A.

Definition ret {A} (a : A) : M A := fun s => mkRes a s [].

Definition bind {A B} (m : M A) (k : A -> M B) : M B :=
  fun s =>
    let r1 := m s in
    let r2 := k (val r1) (st r1) in
    mkRes (val r2) (st r2) (tr r1 ++ tr r2).

Definition emit (e : Event) : M unit := fun s => mkRes tt s [e].

Global Instance M_ret : MRet M := @ret.

Global Instance M_bind : MBind M := fun A B k m => bind m k.

(** [for a in l: body], the values of the bodies being dropped. *)
Fixpoint for_each {A B} (l : list A) (body : A -> M B) : M unit :=
  match l with
  | [] => mret tt
  | a :: l' => body a;; for_each l' body
  end.

(** Python's [range(n)]: empty when [n <= 0]. *)
Definition range (n : Z) : list Z := map Z.of_nat (seq 0 (Z.to_nat n)).

(** ** Primitive steps of the script *)

(** [model(x)] *)
Definition call_model (x : Tensor) : M Tensor :=
  fun s => mkRes (Net_call (model s) x) s [EvModel (model s) x].

(** [f(model, x, ...)] for an attack [f], when the call returns; what
    happens when it raises is the matter of [executed] below. *)
Definition call_attack (f : AttackFn) (x : Tensor) (a : Args) : M Tensor :=
  fun s =>
    let r := attack f (model s) x a (world s) in
    mkRes r.1 (set_world r.2 s) [EvAttack f (model s) x a].

(** the object bound to [model] *)
Definition the_model : M Net := fun s => mkRes (model s) s [].

(** [optimizer.apply_gradients(grads_and_vars)]: the variables of the model
    are assigned in place. *)
Definition optimizer_apply_gradients (gv : list (Tensor * Tensor)) : M unit :=
  fun s =>
    let r := apply_gradients optimizer (slots s) gv in
    mkRes tt (set_slots r.1 (set_model (set_variables (model s) r.2) s))
          [EvApplyGradients optimizer gv].

(** [train_loss(loss)] *)
Definition train_loss_call (loss : Tensor) : M unit :=
  fun s =>
    mkRes tt (set_train_loss (mean_update (train_loss s) loss) s)
          [EvTrainLoss loss].

(** [train_loss.result()] *)
Definition train_loss_result : M Tensor :=
  fun s => mkRes (mean_result (train_loss s)) s [].

(** [m(y, y_pred)] for an accuracy metric [m] *)
Definition test_acc_call (m : Metric) (y y_pred : Tensor) : M unit :=
  fun s =>
    mkRes tt
          (set_test_acc (<[m := acc_update (test_acc s m) y y_pred]> (test_acc s)) s)
          [EvAccuracy m y y_pred].

(** [m.result()] *)
Definition test_acc_result (m : Metric) : M Tensor :=
  fun s => mkRes (acc_result (test_acc s m)) s [].

(** [for batch in d]: one pass over the dataset.  The batches of the pass
    are drawn when the loop starts; the loop body does not touch the
    dataset. *)
Definition iterate (d : Dataset) : M (list (Tensor * Tensor)) :=
  fun s =>
    let r := ds_iter d (world s) in
    mkRes r.1 (set_world r.2 s) [EvIterate d].

Definition Progbar (b : Bar) (target : Z) : M unit := emit (EvProgbar b target).

Definition Progbar_add (b : Bar) (n : Z) (values : list (string * Tensor)) : M unit :=
  emit (EvProgbarAdd b n values).

(** [print(template.format(v))] where the template ends in its only field,
    [{:.3f}] *)
Definition print_format (prefix : string) (v : Tensor) : M unit :=
  emit (EvPrint (String.append prefix (format_3f v))).

(** ** train_step (lines 76-83) *)

Definition train_step (x y : Tensor) : M unit :=
  (* with tf.GradientTape() as tape: *)
  predictions ← call_model x;
  let loss := loss_call loss_object y predictions in
  self ← the_model;
  let recorded := fun vars =>
    loss_call loss_object y (Net_call (set_variables self vars) x) in
  let gradients := tape_gradient recorded (trainable_variables self) in
  optimizer_apply_gradients (combine gradients (trainable_variables self));;
  train_loss_call loss.

(** ** The training loop (lines 86-94) *)

Definition train_batch (FLAGS : Flags) (b : Tensor * Tensor) : M unit :=
  let '(x, y) := b in
  x ← (if adv_train FLAGS
       then call_attack projected_gradient_descent x
              (mkArgs [PyFloat (eps FLAGS); PyFloat 0.01; PyInt 40; np_inf] [])
       else mret x);
  train_step x y;;
  loss ← train_loss_result;
  Progbar_add progress_bar_train (shape0 x) [("loss", loss)].

Definition train_epoch (FLAGS : Flags) (data : EasyDict) (epoch : Z) : M unit :=
  Progbar progress_bar_train 60000;;
  batches ← iterate (train data);
  for_each batches (train_batch FLAGS).

Definition training (FLAGS : Flags) (data : EasyDict) : M unit :=
  for_each (range (nb_epochs FLAGS)) (train_epoch FLAGS data).

(** ** The evaluation loop (lines 97-130) *)

(** The names bound by one iteration of the loop. *)
Record EvalLocals : Type := mkEvalLocals {
  l_x : Tensor; l_y : Tensor; l_y_pred : Tensor;
  l_x_fgm : Tensor; l_y_pred_fgm : Tensor;
  l_x_pgd : Tensor; l_y_pred_pgd : Tensor;
  l_x_bim : Tensor; l_y_pred_bim : Tensor;
  l_x_mea : Tensor; l_y_pred_mea : Tensor;
  l_x_mim : Tensor; l_y_pred_mim : Tensor;
  l_x_cw : Tensor; l_y_pred_cw : Tensor;
  l_x_cw_quantum : Tensor; l_y_pred_cw_quantum : Tensor
}.

Definition eval_batch (FLAGS : Flags) (b : Tensor * Tensor) : M EvalLocals :=
  let '(x, y) := b in
  y_pred ← call_model x;
  test_acc_call test_acc_clean y y_pred;;

  x_fgm ← call_attack fast_gradient_method x
            (mkArgs [PyFloat (eps FLAGS); np_inf] []);
  y_pred_fgm ← call_model x_fgm;
  test_acc_call test_acc_fgsm y y_pred_fgm;;

  x_pgd ← call_attack projected_gradient_descent x
            (mkArgs [PyFloat (eps FLAGS); PyFloat 0.01; PyInt 40; np_inf] []);
  y_pred_pgd ← call_model x_pgd;
  test_acc_call test_acc_pgd y y_pred_pgd;;

  x_bim ← call_attack basic_iterative_method x
            (mkArgs [PyFloat (eps FLAGS)]
               [("eps_iter", PyFloat 0.01); ("nb_iter", PyInt 40); ("norm", PyInt 2)]);
  y_pred_bim ← call_model x_bim;
  test_acc_call test_acc_bim y y_pred_bim;;

  x_mea ← call_attack madry_et_al x
            (mkArgs []
               [("eps", PyFloat 0.01); ("eps_iter", PyFloat 0.01);
                ("nb_iter", PyInt 40); ("norm", np_inf)]);
  y_pred_mea ← call_model x_mea;
  test_acc_call test_acc_mea y y_pred_mea;;

  x_mim ← call_attack momentum_iterative_method x
            (mkArgs []
               [("eps", PyFloat 0.01); ("eps_iter", PyFloat 0.01);
                ("nb_iter", PyInt 40); ("norm", np_inf)]);
  y_pred_mim ← call_model x_mim;
  test_acc_call test_acc_mim y y_pred_mim;;

  x_cw ← call_attack carlini_wagner_l2 x
            (mkArgs [] [("targeted", PyBool false); ("max_iterations", PyInt 50)]);
  y_pred_cw ← call_model x_cw;
  test_acc_call test_acc_cw y y_pred_cw;;

  x_cw_quantum ← call_attack carlini_wagner_l2_quantum x
            (mkArgs [] [("targeted", PyBool false); ("max_iterations", PyInt 10)]);
  y_pred_cw_quantum ← call_model x_cw_quantum;
  test_acc_call test_acc_cw_quantum y y_pred_cw_quantum;;

  Progbar_add progress_bar_test (shape0 x) [];;
  mret (mkEvalLocals x y y_pred x_fgm y_pred_fgm x_pgd y_pred_pgd
          x_bim y_pred_bim x_mea y_pred_mea x_mim y_pred_mim
          x_cw y_pred_cw x_cw_quantum y_pred_cw_quantum).

Definition evaluation (FLAGS : Flags) (data : EasyDict) : M unit :=
  Progbar progress_bar_test 10000;;
  batches ← iterate (test data);
  for_each batches (eval_batch FLAGS).

(** ** The report (lines 132-174) *)

Definition print_acc (prefix : string) (m : Metric) : M unit :=
  r ← test_acc_result m;
  print_format prefix (tensor_mul r (PyInt 100)).

Definition report : M unit :=
  print_acc "test acc on clean examples (%): " test_acc_clean;;
  print_acc "test acc on FGM adversarial examples (%): " test_acc_fgsm;;
  print_acc "test acc on PGD adversarial examples (%): " test_acc_pgd;;
  print_acc "test acc on BIM adversarial examples (%): " test_acc_bim;;
  print_acc "test acc on MEA adversarial examples (%): " test_acc_mea;;
  print_acc "test acc on MIM adversarial examples (%): " test_acc_mim;;
  print_acc "test acc on CW (original) adversarial examples (%): " test_acc_cw;;
  print_acc "test acc on CW (quantum) adversarial examples (%): " test_acc_cw_quantum.

(** ** main (lines 58-174) *)

(** Lines 60-74: the objects [main] creates before its loops. *)
Definition setup (w : World) : State :=
  let r := build_variables w in
  {| model := Net_init r.1;
     slots := slots_init;
     train_loss := mean_init;
     test_acc := fun _ => acc_init;
     world := r.2 |}.

Definition main (FLAGS : Flags) (w : World) : Res unit :=
  let data := ld_mnist in
  (training FLAGS data;; evaluation FLAGS data;; report) (setup w).

(** ** Views of a trace *)

(** The attack calls of a trace: function, input and hyperparameters. *)
Definition attack_call (e : Event) : list (AttackFn * Tensor * Args) :=
  match e with
  | EvAttack f _ x a => [(f, x, a)]
  | _ => []
  end.

Definition attack_calls (t : list Event) : list (AttackFn * Tensor * Args) :=
  flat_map attack_call t.



Definition gradient_step (e : Event) : list Optimizer :=
  match e with
  | EvApplyGradients o _ => [o]
  | _ => []
  end.

(** Events that only the training loop produces. *)
Definition is_train_event (e : Event) : bool :=
  match e with
  | EvApplyGradients _ _ | EvTrainLoss _ => true
  | EvProgbar progress_bar_train _ | EvProgbarAdd progress_bar_train _ _ => true
  | _ => false
  end.

(** Events that only the evaluation loop produces. *)
Definition is_eval_event (e : Event) : bool :=
  match e with
  | EvAccuracy _ _ _ => true
  | EvProgbar progress_bar_test _ | EvProgbarAdd progress_bar_test _ _ => true
  | _ => false
  end.

(** The model an event was given, if it is a call that takes the model. *)
Definition event_model (e : Event) : option Net :=
  match e with
  | EvModel m _ | EvAttack _ m _ _ => Some m
  | _ => None
  end.

(** ** What the script writes at its call sites *)

(** The hyperparameters of the augmentation call of line 92. *)
Definition pgd_args (FLAGS : Flags) : Args :=
  mkArgs [PyFloat (eps FLAGS); PyFloat 0.01; PyInt 40; np_inf] [].

(** The hyperparameters written at lines 102-126. *)
Definition fgm_args (FLAGS : Flags) : Args :=
  mkArgs [PyFloat (eps FLAGS); np_inf] [].

Definition bim_args (FLAGS : Flags) : Args :=
  mkArgs [PyFloat (eps FLAGS)]
         [("eps_iter", PyFloat 0.01); ("nb_iter", PyInt 40); ("norm", PyInt 2)].

Definition hard_coded_args : Args :=
  mkArgs [] [("eps", PyFloat 0.01); ("eps_iter", PyFloat 0.01);
             ("nb_iter", PyInt 40); ("norm", np_inf)].

Definition cw_args (max_iterations : Z) : Args :=
  mkArgs [] [("targeted", PyBool false); ("max_iterations", PyInt max_iterations)].

(** The attack calls of one iteration on the batch [x]. *)
Definition eval_attacks (FLAGS : Flags) (x : Tensor)
  : list (AttackFn * Tensor * Args) :=
  [(fast_gradient_method, x, fgm_args FLAGS);
   (projected_gradient_descent, x, pgd_args FLAGS);
   (basic_iterative_method, x, bim_args FLAGS);
   (madry_et_al, x, hard_coded_args);
   (momentum_iterative_method, x, hard_coded_args);
   (carlini_wagner_l2, x, cw_args 50);
   (carlini_wagner_l2_quantum, x, cw_args 10)].


(** The prediction each metric is updated with. *)
Definition prediction_for (m : Metric) (v : EvalLocals) : Tensor :=
  match m with
  | test_acc_clean => l_y_pred v
  | test_acc_fgsm => l_y_pred_fgm v
  | test_acc_pgd => l_y_pred_pgd v
  | test_acc_bim => l_y_pred_bim v
  | test_acc_mea => l_y_pred_mea v
  | test_acc_mim => l_y_pred_mim v
  | test_acc_cw => l_y_pred_cw v
  | test_acc_cw_quantum => l_y_pred_cw_quantum v
  end.

(** The input each metric's prediction is computed from. *)
Definition input_for (m : Metric) (v : EvalLocals) : Tensor :=
  match m with
  | test_acc_clean => l_x v
  | test_acc_fgsm => l_x_fgm v
  | test_acc_pgd => l_x_pgd v
  | test_acc_bim => l_x_bim v
  | test_acc_mea => l_x_mea v
  | test_acc_mim => l_x_mim v
  | test_acc_cw => l_x_cw v
  | test_acc_cw_quantum => l_x_cw_quantum v
  end.

Definition test_batches (data : EasyDict) (s : State) : list (Tensor * Tensor) :=
  (ds_iter (test data) (world s)).1.

Definition train_batches (data : EasyDict) (s : State) : list (Tensor * Tensor) :=
  (ds_iter (train data) (world s)).1.



(** The lines of the report (lines 132-174): text before the number, metric. *)
Definition report_lines : list (string * Metric) :=
  [("test acc on clean examples (%): ", test_acc_clean);
   ("test acc on FGM adversarial examples (%): ", test_acc_fgsm);
   ("test acc on PGD adversarial examples (%): ", test_acc_pgd);
   ("test acc on BIM adversarial examples (%): ", test_acc_bim);
   ("test acc on MEA adversarial examples (%): ", test_acc_mea);
   ("test acc on MIM adversarial examples (%): ", test_acc_mim);
   ("test acc on CW (original) adversarial examples (%): ", test_acc_cw);
   ("test acc on CW (quantum) adversarial examples (%): ", test_acc_cw_quantum)].

Definition printed (e : Event) : list string :=
  match e with
  | EvPrint line => [line]
  | _ => []
  end.

Definition model_input (e : Event) : list Tensor :=
  match e with
  | EvModel _ x => [x]
  | _ => []
  end.

Definition iteration (e : Event) : list Dataset :=
  match e with
  | EvIterate d => [d]
  | _ => []
  end.

(** [e] was not given a model other than [m]. *)
Definition uses_model (m : Net) (e : Event) : Prop :=
  match event_model e with
  | Some m' => m' = m
  | None => True
  end.

(** ** Binding hyperparameters to parameter names *)

(** Modelled from the spec: the parameters of the attack functions that
    follow [model_fn, x], in declaration order.  The attack library is not
    part of the script; the names are those under which the script passes
    the same hyperparameters by keyword (lines 110-118). *)
Definition parameters (f : AttackFn) : list string :=
  match f with
  | fast_gradient_method => ["eps"; "norm"]
  | projected_gradient_descent | basic_iterative_method
  | madry_et_al | momentum_iterative_method =>
      ["eps"; "eps_iter"; "nb_iter"; "norm"]
  | carlini_wagner_l2 | carlini_wagner_l2_quantum => []
  end.

Fixpoint lookup_arg (name : string) (l : list (string * PyVal)) : option PyVal :=
  match l with
  | [] => None
  | (n, v) :: l' => if String.eqb n name then Some v else lookup_arg name l'
  end.

(** The value a call binds to the parameter [name], if it passes one. *)
Definition argument (f : AttackFn) (a : Args) (name : string) : option PyVal :=
  lookup_arg name (combine (parameters f) (positional a) ++ keywords a).

(** The hyperparameters of the attack calls of a trace. *)
Definition hyperparameters (t : list Event) : list (AttackFn * Args) :=
  map (fun c => (c.1.1, c.2)) (attack_calls t).

Definition is_mea_or_mim (f : AttackFn) : bool :=
  match f with
  | madry_et_al | momentum_iterative_method => true
  | _ => false
  end.

(** The calls of [madry_et_al] and [momentum_iterative_method] in a trace. *)
Definition mea_mim_call (e : Event) : list Event :=
  match e with
  | EvAttack f _ _ _ => if is_mea_or_mim f then [e] else []
  | _ => []
  end.

(** The two calls on a batch [x] with the model [m]. *)
Definition mea_mim_on (m : Net) (x : Tensor) : list Event :=
  [EvAttack madry_et_al m x hard_coded_args;
   EvAttack momentum_iterative_method m x hard_coded_args].

(** The hyperparameters with the [eps] of the three flag-driven calls
    (their first positional argument) left out. *)
Definition without_eps (c : AttackFn * Args) : AttackFn * Args :=
  match c.1 with
  | fast_gradient_method | projected_gradient_descent | basic_iterative_method =>
      (c.1, mkArgs (tail (positional c.2)) (keywords c.2))
  | _ => c
  end.

(** ** Reading the metrics back from a trace *)

(** The effect of one event on [train_loss]. *)
Definition record_loss (acc : MeanState) (e : Event) : MeanState :=
  match e with
  | EvTrainLoss loss => mean_update acc loss
  | _ => acc
  end.

(** The effect of one event on the accuracy metric [m]. *)
Definition record_accuracy (m : Metric) (acc : AccState) (e : Event) : AccState :=
  match e with
  | EvAccuracy m' y y_pred =>
      if decide (m' = m) then acc_update acc y y_pred else acc
  | _ => acc
  end.

(** The losses fed to [train_loss]. *)
Definition loss_record (e : Event) : list Tensor :=
  match e with
  | EvTrainLoss loss => [loss]
  | _ => []
  end.

(** The amounts by which a progress bar is advanced. *)
Definition progress (b : Bar) (e : Event) : list Z :=
  match e, b with
  | EvProgbarAdd progress_bar_train n _, progress_bar_train => [n]
  | EvProgbarAdd progress_bar_test n _, progress_bar_test => [n]
  | _, _ => []
  end.

(** [e] was not given a model whose layers differ from those of [m]. *)
Definition same_architecture (m : Net) (e : Event) : Prop :=
  match event_model e with
  | Some m' => layers m' = layers m
  | None => True
  end.

End Tutorial.

Arguments mkRes {TF A} _ _ _.
Arguments val {TF A} _.
Arguments st {TF A} _.
Arguments tr {TF A} _.

(** * Attack calls that raise

    The script has no [try]: when a call raises, nothing after it runs.
    The attacks validate their arguments (the library's
    [projected_gradient_descent] asserts [eps_iter <= eps]), and the script
    hands them [FLAGS.eps] unchecked, so a run may stop at an attack call.
    Whether a call raises is decided by what it is given (model, input,
    hyperparameters).  The program of the previous section describes every
    call as if it returned; what a run really executes is its trace up to
    and including the first attack call that raises. *)

Class AttackChecks `{TF : Framework} : Type := {
  attack_raises : AttackFn -> Net -> Tensor -> Args -> bool
}.

Section Execution.

Context `{TF : Framework} {AC : AttackChecks}.

(** The call recorded by [e] raises instead of returning. *)
Definition raising (e : Event) : bool :=
  match e with
  | EvAttack f m x a => attack_raises f m x a
  | _ => false
  end.

(** What is executed of a trace: everything up to and including the first
    call that raises. *)
Fixpoint executed (t : list Event) : list Event :=
  match t with
  | [] => []
  | e :: t' => e :: (if raising e then [] else executed t')
  end.

(** No call of the trace raises: the run reaches its end, and its final
    state is the one the program computes. *)
Definition completes (t : list Event) : bool :=
  forallb (fun e => negb (raising e)) t.

End Execution.

(** * A small instance

    Tensors are integers, a dataset is the list of its batches, an attack
    adds the number of hyperparameters it was given.  The instance serves to
    run the script on concrete inputs. *)
Module Toy.

Definition toy_layer (l : Layer) (x : Z) : Z :=
  match l with
  | Dense units _ => x + units
  | _ => x
  end.

Definition framework : Framework := {|
  Tensor := Z;
  OptSlots := Z;
  MeanState := Z;
  AccState := Z;
  Dataset := list (Z * Z);
  World := Z;
  layer_call := fun _ l _ x => toy_layer l x;
  build_variables := fun w => ([0], w);
  loss_call := fun _ y p => p - y;
  tape_gradient := fun _ vars => map (fun _ => 1) vars;
  apply_gradients := fun _ o gv => (o + 1, map (fun p => p.2 - p.1) gv);
  slots_init := 0;
  mean_init := 0;
  mean_update := fun m t => m + t;
  mean_result := fun m => m;
  acc_init := 0;
  acc_update := fun a y p => if Z.eqb y p then a + 1 else a;
  acc_result := fun a => a;
  shape0 := fun _ => 1;
  tensor_mul := fun t v => match v with PyInt n => t * n | _ => t end;
  tensor_div := fun t v => match v with PyInt n => t / n | _ => t end;
  cast_float32 := fun t => t;
  format_3f := fun t => if Z.eqb t 0 then "0.000" else "100.000";
  tfds_load := fun _ _ _ _ split =>
    if String.eqb split "train" then [(255, 1); (510, 2)] else [(0, 138)];
  ds_map := fun f d => map f d;
  ds_shuffle := fun _ d => d;
  ds_batch := fun _ d => d;
  ds_iter := fun d w => (d, w + 1)
|}.

Definition toy_attack (f : AttackFn) (m : @Net framework) (x : Z) (a : Args)
           (w : Z) : Z * Z :=
  (x + Z.of_nat (length (positional a) + length (keywords a)), w + 1).

Definition attacks : @AttackLibrary framework :=
  @Build_AttackLibrary framework toy_attack.

(** The argument check of the library's [projected_gradient_descent], which
    [basic_iterative_method] and [madry_et_al] wrap: the call raises unless
    [eps_iter <= eps]. *)
Definition toy_raises (f : AttackFn) (m : @Net framework) (x : Z) (a : Args)
  : bool :=
  match f with
  | projected_gradient_descent | basic_iterative_method | madry_et_al =>
      match argument f a "eps", argument f a "eps_iter" with
      | Some (PyFloat e), Some (PyFloat i) => PrimFloat.ltb e i
      | _, _ => false
      end
  | _ => false
  end.

Definition checks : @AttackChecks framework :=
  @Build_AttackChecks framework toy_raises.

Definition executed := @executed framework checks.
Definition completes := @completes framework checks.


(** One epoch of adversarial training with [eps = 0.005]. *)
Definition adv_small : Flags :=
  {| nb_epochs := 1; eps := 0.005%float; adv_train := true |}.

Definition eps_half : Flags :=
  {| nb_epochs := 8; eps := 0.5%float; adv_train := false |}.

Definition one_epoch : Flags :=
  {| nb_epochs := 1; eps := 0.3%float; adv_train := true |}.

Definition no_epochs : Flags :=
  {| nb_epochs := 0; eps := 0.3%float; adv_train := true |}.

(** A dataset pair without any batch. *)
Definition no_data : @EasyDict framework := @mkData framework [] [].

Definition training := @training framework attacks.
Definition evaluation := @evaluation framework attacks.
Definition eval_batch := @eval_batch framework attacks.
Definition train_batch := @train_batch framework attacks.
Definition main := @main framework attacks.
Definition start : @State framework := @setup framework 0.

(** The first hyperparameter of the first attack call, as a float. *)
Definition first_eps (h : list (AttackFn * Args)) : float :=
  match h with
  | (_, {| positional := PyFloat f :: _ |}) :: _ => f
  | _ => nan
  end.

End Toy.

(** * A second small instance, in which training sees its inputs

    As [Toy], except that the gradient is the recorded loss itself (so the
    trained variables depend on the batches trained on) and that an attack
    moves its input by one when its [eps] is at least 0.4. *)
Module ToyAdv.

Definition framework : Framework := {|
  Tensor := Z;
  OptSlots := Z;
  MeanState := Z;
  AccState := Z;
  Dataset := list (Z * Z);
  World := Z;
  layer_call := fun _ l _ x => Toy.toy_layer l x;
  build_variables := fun w => ([0], w);
  loss_call := fun _ y p => p - y;
  tape_gradient := fun recorded vars => map (fun _ => recorded vars) vars;
  apply_gradients := fun _ o gv => (o + 1, map (fun p => p.2 - p.1) gv);
  slots_init := 0;
  mean_init := 0;
  mean_update := fun m t => m + t;
  mean_result := fun m => m;
  acc_init := 0;
  acc_update := fun a y p => if Z.eqb y p then a + 1 else a;
  acc_result := fun a => a;
  shape0 := fun _ => 1;
  tensor_mul := fun t v => match v with PyInt n => t * n | _ => t end;
  tensor_div := fun t v => match v with PyInt n => t / n | _ => t end;
  cast_float32 := fun t => t;
  format_3f := fun t => if Z.eqb t 0 then "0.000" else "100.000";
  tfds_load := fun _ _ _ _ split =>
    if String.eqb split "train" then [(255, 1); (510, 2)] else [(0, 138)];
  ds_map := fun f d => map f d;
  ds_shuffle := fun _ d => d;
  ds_batch := fun _ d => d;
  ds_iter := fun d w => (d, w + 1)
|}.

Definition toy_attack (f : AttackFn) (m : @Net framework) (x : Z) (a : Args)
           (w : Z) : Z * Z :=
  match argument f a "eps" with
  | Some (PyFloat e) => (if PrimFloat.ltb e 0.4%float then x else x + 1, w)
  | _ => (x, w)
  end.

Definition attacks : @AttackLibrary framework :=
  @Build_AttackLibrary framework toy_attack.

Definition toy_raises (f : AttackFn) (m : @Net framework) (x : Z) (a : Args)
  : bool :=
  match f with
  | projected_gradient_descent | basic_iterative_method | madry_et_al =>
      match argument f a "eps", argument f a "eps_iter" with
      | Some (PyFloat e), Some (PyFloat i) => PrimFloat.ltb e i
      | _, _ => false
      end
  | _ => false
  end.

Definition checks : @AttackChecks framework :=
  @Build_AttackChecks framework toy_raises.

Definition executed := @executed framework checks.
Definition completes := @completes framework checks.
Definition main := @main framework attacks.

Definition adv (e : float) : Flags :=
  {| nb_epochs := 1; eps := e; adv_train := true |}.

End ToyAdv.

(** * Properties of the script *)

Section Properties.

Context `{TF : Framework} {AL : AttackLibrary} {AC : AttackChecks}.

(** ** Laws of the monad and of loops *)

Lemma tr_bind {A B} (m : M A) (k : A -> M B) s :
  tr ((m ≫= k) s) = tr (m s) ++ tr (k (val (m s)) (st (m s))).
Proof. reflexivity. Qed.

Lemma st_bind {A B} (m : M A) (k : A -> M B) s :
  st ((m ≫= k) s) = st (k (val (m s)) (st (m s))).
Proof. reflexivity. Qed.

Lemma val_bind {A B} (m : M A) (k : A -> M B) s :
  val ((m ≫= k) s) = val (k (val (m s)) (st (m s))).
Proof. reflexivity. Qed.

Lemma for_each_nil {A B} (body : A -> M B) s :
  for_each [] body s = mkRes tt s [].
Proof. reflexivity. Qed.

Lemma tr_for_each_cons {A B} (body : A -> M B) a l s :
  tr (for_each (a :: l) body s)
  = tr (body a s) ++ tr (for_each l body (st (body a s))).
Proof. reflexivity. Qed.

Lemma st_for_each_cons {A B} (body : A -> M B) a l s :
  st (for_each (a :: l) body s) = st (for_each l body (st (body a s))).
Proof. reflexivity. Qed.

(** A loop keeps an invariant of its body and every event it emits satisfies
    what the body's events satisfy. *)
Lemma for_each_inv {A B} (I : State -> Prop) (P : Event -> Prop)
      (body : A -> M B) (l : list A) :
  (forall a s, I s -> I (st (body a s)) /\ Forall P (tr (body a s))) ->
  forall s, I s ->
    I (st (for_each l body s)) /\ Forall P (tr (for_each l body s)).
Proof.
  intros Hbody. induction l as [|a l IH]; intros s Hs.
  - split; [exact Hs | constructor].
  - rewrite st_for_each_cons, tr_for_each_cons.
    destruct (Hbody a s Hs) as [H1 H2].
    destruct (IH _ H1) as [H3 H4].
    split; [exact H3 | apply Forall_app; split; assumption].
Qed.

(** A view of the trace of a loop is the concatenation of the views of its
    iterations, provided the view of one iteration depends on the loop
    variable only. *)
Lemma for_each_view {A B C} (I : State -> Prop) (g : Event -> list C)
      (h : A -> list C) (body : A -> M B) (l : list A) :
  (forall a s, I s -> I (st (body a s)) /\ flat_map g (tr (body a s)) = h a) ->
  forall s, I s ->
    I (st (for_each l body s))
    /\ flat_map g (tr (for_each l body s)) = flat_map h l.
Proof.
  intros Hbody. induction l as [|a l IH]; intros s Hs.
  - split; [exact Hs | reflexivity].
  - rewrite st_for_each_cons, tr_for_each_cons, flat_map_app.
    destruct (Hbody a s Hs) as [H1 H2].
    destruct (IH _ H1) as [H3 H4].
    split; [exact H3 | cbn [flat_map]; rewrite H2, H4; reflexivity].
Qed.

Lemma length_range n : length (range n) = Z.to_nat n.
Proof. unfold range. rewrite length_map, length_seq. reflexivity. Qed.

(** ** The network *)

Lemma set_variables_same (self : Net) :
  set_variables self (trainable_variables self) = self.
Proof. destruct self; reflexivity. Qed.

(** C4. [Net] has exactly seven layers: three [Conv2D], a [Dropout], a
    [Flatten], a [Dense] of 128 units with ReLU, and a [Dense] of 10 units
    without activation.  [Net.call] feeds its input through them once each,
    in that order, every layer receiving the output of the one before it
    (a left fold: no layer is revisited and no earlier output is reused), and
    returns the output of the last one. *)
Theorem Net_is_seven_layer_feed_forward (vars : list Tensor) (x : Tensor) :
  let self := Net_init vars in
  length (layers self) = 7%nat
  /\ map (fun p => layer_kind p.2) (layers self)
     = [KConv2D; KConv2D; KConv2D; KDropout; KFlatten; KDense; KDense]
  /\ dense1 self = Dense 128 (Some "relu")
  /\ dense2 self = Dense 10 None
  /\ Net_call self x
     = fold_left (fun t p => layer_call p.1 p.2 vars t) (layers self) x
  /\ Net_call self x
     = layer_call "dense2" (Dense 10 None) vars
         (layer_call "dense1" (Dense 128 (Some "relu")) vars
            (layer_call "flatten" Flatten vars
               (layer_call "dropout" (Dropout 0.25%float) vars
                  (layer_call "conv3" (Conv2D 128 5 (1, 1) (Some "relu") "valid") vars
                     (layer_call "conv2" (Conv2D 128 6 (2, 2) (Some "relu") "valid") vars
                        (layer_call "conv1" (Conv2D 64 8 (2, 2) (Some "relu") "same") vars
                           x)))))).
Proof. cbv zeta. repeat split; reflexivity. Qed.

(** ** One training step *)

(** C7. [train_step(x, y)] makes one gradient-descent update: the loss is
    the sparse categorical cross-entropy (on logits) of [model(x)] against
    [y]; the gradients are those of that recorded loss with respect to the
    model's trainable variables; the Adam optimizer (learning rate 0.001) is
    applied once to the gradients zipped with the variables, which assigns
    the variables and the optimizer slots: after the step the model's
    trainable variables are the values the optimizer returned, and its
    layers are untouched; and the loss is fed to [train_loss].  Nothing else
    changes, and the step makes exactly these three calls. *)
Theorem train_step_is_one_gradient_update (x y : Tensor) (s : State) :
  let self := model s in
  let vars := trainable_variables self in
  let recorded := fun v =>
    loss_call (SparseCategoricalCrossentropy true) y
              (Net_call (set_variables self v) x) in
  let loss := loss_call (SparseCategoricalCrossentropy true) y (Net_call self x) in
  let gradients := tape_gradient recorded vars in
  let grads_and_vars := combine gradients vars in
  let upd := apply_gradients (Adam 0.001%float) (slots s) grads_and_vars in
  let r := train_step x y s in
  recorded vars = loss
  /\ tr r = [EvModel self x;
             EvApplyGradients (Adam 0.001%float) grads_and_vars;
             EvTrainLoss loss]
  /\ flat_map gradient_step (tr r) = [Adam 0.001%float]
  /\ model (st r) = set_variables self upd.2
  /\ trainable_variables (model (st r)) = upd.2
  /\ layers (model (st r)) = layers self
  /\ slots (st r) = upd.1
  /\ train_loss (st r) = mean_update (train_loss s) loss
  /\ test_acc (st r) = test_acc s
  /\ world (st r) = world s.
Proof.
  cbv zeta. split.
  - rewrite set_variables_same. reflexivity.
  - repeat split; reflexivity.
Qed.

(** ** One iteration of the training loop *)

(** The calls of an iteration of the training loop on a batch [(x, y)],
    every call taken to return: at most one attack call, which comes first
    and whose output replaces [x] in [train_step] and in the progress bar. *)
Lemma train_batch_call_sites
        (FLAGS : Flags) (x y : Tensor) (s : State) :
  let adv := attack projected_gradient_descent (model s) x (pgd_args FLAGS) (world s) in
  let x' := if adv_train FLAGS then adv.1 else x in
  let s1 := if adv_train FLAGS then set_world adv.2 s else s in
  let r := train_batch FLAGS (x, y) s in
  attack_calls (tr r)
  = (if adv_train FLAGS then [(projected_gradient_descent, x, pgd_args FLAGS)] else [])
  /\ (length (attack_calls (tr r)) <= 1)%nat
  /\ tr r
     = (if adv_train FLAGS
        then [EvAttack projected_gradient_descent (model s) x (pgd_args FLAGS)]
        else [])
       ++ tr (train_step x' y s1)
       ++ [EvProgbarAdd progress_bar_train (shape0 x')
             [("loss", mean_result (train_loss (st (train_step x' y s1))))]]
  /\ st r = st (train_step x' y s1).
Proof.
  cbv zeta. destruct (adv_train FLAGS) eqn:E;
    unfold train_batch; rewrite E; repeat split;
    first [reflexivity | compute; lia].
Qed.

(** ** One iteration of the evaluation loop *)

(** The whole trace of one iteration, in terms of the names it binds. *)
Lemma eval_batch_trace (FLAGS : Flags) (x y : Tensor) (s : State) :
  let r := eval_batch FLAGS (x, y) s in
  let v := val r in
  let m := model s in
  tr r =
  [EvModel m x; EvAccuracy test_acc_clean y (l_y_pred v);
   EvAttack fast_gradient_method m x (fgm_args FLAGS);
   EvModel m (l_x_fgm v); EvAccuracy test_acc_fgsm y (l_y_pred_fgm v);
   EvAttack projected_gradient_descent m x (pgd_args FLAGS);
   EvModel m (l_x_pgd v); EvAccuracy test_acc_pgd y (l_y_pred_pgd v);
   EvAttack basic_iterative_method m x (bim_args FLAGS);
   EvModel m (l_x_bim v); EvAccuracy test_acc_bim y (l_y_pred_bim v);
   EvAttack madry_et_al m x hard_coded_args;
   EvModel m (l_x_mea v); EvAccuracy test_acc_mea y (l_y_pred_mea v);
   EvAttack momentum_iterative_method m x hard_coded_args;
   EvModel m (l_x_mim v); EvAccuracy test_acc_mim y (l_y_pred_mim v);
   EvAttack carlini_wagner_l2 m x (cw_args 50);
   EvModel m (l_x_cw v); EvAccuracy test_acc_cw y (l_y_pred_cw v);
   EvAttack carlini_wagner_l2_quantum m x (cw_args 10);
   EvModel m (l_x_cw_quantum v);
   EvAccuracy test_acc_cw_quantum y (l_y_pred_cw_quantum v);
   EvProgbarAdd progress_bar_test (shape0 x) []].
Proof. vm_compute. reflexivity. Qed.

(** The names bound by one iteration: every attack is run on [x] with the
    model of the entry state, the random state being handed from one attack
    to the next, and every prediction is the model's output on the
    corresponding input. *)
Lemma eval_batch_locals (FLAGS : Flags) (x y : Tensor) (s : State) :
  let v := val (eval_batch FLAGS (x, y) s) in
  let m := model s in
  let a1 := attack fast_gradient_method m x (fgm_args FLAGS) (world s) in
  let a2 := attack projected_gradient_descent m x (pgd_args FLAGS) a1.2 in
  let a3 := attack basic_iterative_method m x (bim_args FLAGS) a2.2 in
  let a4 := attack madry_et_al m x hard_coded_args a3.2 in
  let a5 := attack momentum_iterative_method m x hard_coded_args a4.2 in
  let a6 := attack carlini_wagner_l2 m x (cw_args 50) a5.2 in
  let a7 := attack carlini_wagner_l2_quantum m x (cw_args 10) a6.2 in
  v = {| l_x := x; l_y := y; l_y_pred := Net_call m x;
         l_x_fgm := a1.1; l_y_pred_fgm := Net_call m a1.1;
         l_x_pgd := a2.1; l_y_pred_pgd := Net_call m a2.1;
         l_x_bim := a3.1; l_y_pred_bim := Net_call m a3.1;
         l_x_mea := a4.1; l_y_pred_mea := Net_call m a4.1;
         l_x_mim := a5.1; l_y_pred_mim := Net_call m a5.1;
         l_x_cw := a6.1; l_y_pred_cw := Net_call m a6.1;
         l_x_cw_quantum := a7.1; l_y_pred_cw_quantum := Net_call m a7.1 |}.
Proof. vm_compute. reflexivity. Qed.

(** What one iteration leaves unchanged. *)
Lemma eval_batch_frame (FLAGS : Flags) (b : Tensor * Tensor) (s : State) :
  let s' := st (eval_batch FLAGS b s) in
  model s' = model s /\ slots s' = slots s /\ train_loss s' = train_loss s.
Proof. destruct b. vm_compute. repeat split; reflexivity. Qed.

Lemma eval_batch_metrics (FLAGS : Flags) (x y : Tensor) (s : State) (m : Metric) :
  let r := eval_batch FLAGS (x, y) s in
  test_acc (st r) m = acc_update (test_acc s m) y (prediction_for m (val r))
  /\ prediction_for m (val r) = Net_call (model s) (input_for m (val r)).
Proof. destruct m; vm_compute; split; reflexivity. Qed.

(** ** The loops, unfolded once *)

Lemma evaluation_unfold (FLAGS : Flags) (data : EasyDict) (s : State) :
  let s1 := set_world (ds_iter (test data) (world s)).2 s in
  let loop := for_each (test_batches data s) (eval_batch FLAGS) s1 in
  tr (evaluation FLAGS data s)
  = EvProgbar progress_bar_test 10000 :: EvIterate (test data) :: tr loop
  /\ st (evaluation FLAGS data s) = st loop.
Proof. split; reflexivity. Qed.

Lemma train_epoch_unfold (FLAGS : Flags) (data : EasyDict) (epoch : Z) (s : State) :
  let s1 := set_world (ds_iter (train data) (world s)).2 s in
  let loop := for_each (train_batches data s) (train_batch FLAGS) s1 in
  tr (train_epoch FLAGS data epoch s)
  = EvProgbar progress_bar_train 60000 :: EvIterate (train data) :: tr loop
  /\ st (train_epoch FLAGS data epoch s) = st loop.
Proof. split; reflexivity. Qed.

Lemma main_unfold (FLAGS : Flags) (w : World) :
  let T := training FLAGS ld_mnist (setup w) in
  let E := evaluation FLAGS ld_mnist (st T) in
  tr (main FLAGS w) = tr T ++ tr E ++ tr (report (st E)).
Proof. reflexivity. Qed.


Lemma flat_map_nil {A C} (l : list A) : flat_map (fun _ => @nil C) l = [].
Proof. induction l; [reflexivity | assumption]. Qed.

(** A view that is empty on every training iteration is empty on the whole
    training loop. *)
Lemma training_view_nil {C} (g : Event -> list C)
      (FLAGS : Flags) (data : EasyDict) (s : State) :
  g (EvProgbar progress_bar_train 60000) = [] ->
  g (EvIterate (train data)) = [] ->
  (forall b s', flat_map g (tr (train_batch FLAGS b s')) = []) ->
  flat_map g (tr (training FLAGS data s)) = [].
Proof.
  intros H1 H2 Hb. unfold training.
  rewrite <- (flat_map_nil (range (nb_epochs FLAGS))).
  apply (for_each_view (fun _ => True) g (fun _ => []) (train_epoch FLAGS data));
    [|exact I].
  intros epoch s' _. split; [exact I|].
  destruct (train_epoch_unfold FLAGS data epoch s') as [-> _].
  cbn [flat_map]. rewrite H1, H2. cbn [app].
  rewrite <- (flat_map_nil (train_batches data s')).
  apply (for_each_view (fun _ => True) g (fun _ => []) (train_batch FLAGS));
    [|exact I].
  intros b s'' _. split; [exact I | apply Hb].
Qed.

(** The trace of an iteration of the training loop. *)
Lemma train_batch_trace (FLAGS : Flags) (x y : Tensor) (s : State) :
  exists x' gv loss loss',
    tr (train_batch FLAGS (x, y) s)
    = (if adv_train FLAGS
       then [EvAttack projected_gradient_descent (model s) x (pgd_args FLAGS)]
       else [])
      ++ [EvModel (model s) x'; EvApplyGradients optimizer gv; EvTrainLoss loss;
          EvProgbarAdd progress_bar_train (shape0 x') [("loss", loss')]].
Proof.
  unfold train_batch. destruct (adv_train FLAGS); do 4 eexists; reflexivity.
Qed.

Lemma attack_calls_eval_batch (FLAGS : Flags) (x y : Tensor) (s : State) :
  attack_calls (tr (eval_batch FLAGS (x, y) s)) = eval_attacks FLAGS x.
Proof. rewrite eval_batch_trace. reflexivity. Qed.


(** ** The evaluation loop: seven attacks and eight metrics per batch *)


(** ** Order of the evaluators and of the report *)




Lemma report_run (s : State) :
  tr (report s)
  = map (fun pm =>
           EvPrint (String.append pm.1
                      (format_3f (tensor_mul (acc_result (test_acc s pm.2))
                                             (PyInt 100)))))
        report_lines
  /\ st (report s) = s.
Proof. destruct s. split; reflexivity. Qed.


(** ** The clean batch is never overwritten *)

(** C10. In one iteration of the evaluation loop on [(x, y)]: every attack
    receives [x] itself (never the output of another attack) and the model
    of the entry state; [x] and [y] still hold the batch when the iteration
    ends; the outputs of the seven attacks are bound to seven names of their
    own, each of which is the input of exactly one model call; and the first
    two steps are the model call on [x] and the update of the clean metric
    with its prediction, before any attack is called. *)
Theorem attacks_share_the_clean_batch
        (FLAGS : Flags) (x y : Tensor) (s : State) :
  let r := eval_batch FLAGS (x, y) s in
  let v := val r in
  let m := model s in
  let a1 := attack fast_gradient_method m x (fgm_args FLAGS) (world s) in
  let a2 := attack projected_gradient_descent m x (pgd_args FLAGS) a1.2 in
  let a3 := attack basic_iterative_method m x (bim_args FLAGS) a2.2 in
  let a4 := attack madry_et_al m x hard_coded_args a3.2 in
  let a5 := attack momentum_iterative_method m x hard_coded_args a4.2 in
  let a6 := attack carlini_wagner_l2 m x (cw_args 50) a5.2 in
  let a7 := attack carlini_wagner_l2_quantum m x (cw_args 10) a6.2 in
  map (fun c => c.1.2) (attack_calls (tr r)) = repeat x 7
  /\ flat_map (fun e => match e with EvAttack _ m' _ _ => [m'] | _ => [] end) (tr r)
     = repeat m 7
  /\ l_x v = x /\ l_y v = y
  /\ [l_x_fgm v; l_x_pgd v; l_x_bim v; l_x_mea v; l_x_mim v; l_x_cw v;
      l_x_cw_quantum v]
     = [a1.1; a2.1; a3.1; a4.1; a5.1; a6.1; a7.1]
  /\ flat_map model_input (tr r)
     = [x; l_x_fgm v; l_x_pgd v; l_x_bim v; l_x_mea v; l_x_mim v; l_x_cw v;
        l_x_cw_quantum v]
  /\ take 2 (tr r) = [EvModel m x; EvAccuracy test_acc_clean y (Net_call m x)]
  /\ attack_calls (take 2 (tr r)) = []
  /\ attack_calls (drop 2 (tr r)) = eval_attacks FLAGS x.
Proof.
  cbv zeta.
  pose proof (eval_batch_locals FLAGS x y s) as Hv. cbv zeta in Hv.
  pose proof (eval_batch_trace FLAGS x y s) as Ht. cbv zeta in Ht.
  rewrite Ht. clear Ht.
  split; [reflexivity|]. split; [reflexivity|].
  rewrite Hv. repeat split; reflexivity.
Qed.

(** ** Training comes first *)

Lemma flat_map_singleton {A C} (c : C) (l : list A) :
  flat_map (fun _ => [c]) l = repeat c (length l).
Proof. induction l as [|a l IH]; [reflexivity | cbn; rewrite IH; reflexivity]. Qed.

Lemma train_batch_events (FLAGS : Flags) (b : Tensor * Tensor) (s : State) :
  Forall (fun e => is_eval_event e = false) (tr (train_batch FLAGS b s))
  /\ flat_map iteration (tr (train_batch FLAGS b s)) = [].
Proof.
  destruct b as [x y].
  destruct (train_batch_trace FLAGS x y s) as (x' & gv & loss & loss' & ->).
  destruct (adv_train FLAGS); split; try reflexivity;
    repeat (constructor; try reflexivity).
Qed.

Lemma training_events (FLAGS : Flags) (data : EasyDict) (s : State) :
  Forall (fun e => is_eval_event e = false) (tr (training FLAGS data s)).
Proof.
  apply (for_each_inv (fun _ => True) _ (train_epoch FLAGS data)); [|exact I].
  intros epoch s' _. split; [exact I|].
  destruct (train_epoch_unfold FLAGS data epoch s') as [-> _].
  do 2 (constructor; [reflexivity|]).
  apply (for_each_inv (fun _ => True) _ (train_batch FLAGS)); [|exact I].
  intros b s'' _. split; [exact I | apply train_batch_events].
Qed.

Lemma training_epochs (FLAGS : Flags) (data : EasyDict) (s : State) :
  flat_map iteration (tr (training FLAGS data s))
  = repeat (train data) (Z.to_nat (nb_epochs FLAGS)).
Proof.
  rewrite <- length_range, <- flat_map_singleton. unfold training.
  apply (for_each_view (fun _ => True) iteration (fun _ => [train data])
                       (train_epoch FLAGS data)); [|exact I].
  intros epoch s' _. split; [exact I|].
  destruct (train_epoch_unfold FLAGS data epoch s') as [-> _].
  cbn [flat_map iteration app]. f_equal.
  rewrite <- (flat_map_nil (train_batches data s')).
  apply (for_each_view (fun _ => True) iteration (fun _ => [])
                       (train_batch FLAGS)); [|exact I].
  intros b s'' _. split; [exact I | apply train_batch_events].
Qed.

Lemma eval_batch_events (FLAGS : Flags) (b : Tensor * Tensor) (s : State) :
  Forall (fun e => is_train_event e = false) (tr (eval_batch FLAGS b s))
  /\ Forall (uses_model (model s)) (tr (eval_batch FLAGS b s))
  /\ flat_map iteration (tr (eval_batch FLAGS b s)) = [].
Proof.
  destruct b as [x y]. rewrite eval_batch_trace.
  generalize (val (eval_batch FLAGS (x, y) s)). intros v.
  split; [|split]; try reflexivity; repeat (constructor; try reflexivity).
Qed.

Lemma evaluation_events (FLAGS : Flags) (data : EasyDict) (s : State) :
  Forall (fun e => is_train_event e = false /\ uses_model (model s) e)
         (tr (evaluation FLAGS data s))
  /\ model (st (evaluation FLAGS data s)) = model s
  /\ flat_map iteration (tr (evaluation FLAGS data s)) = [test data].
Proof.
  destruct (evaluation_unfold FLAGS data s) as [-> ->].
  set (s1 := set_world _ s).
  assert (Hm : model s1 = model s) by reflexivity.
  split; [|split].
  - do 2 (constructor; [split; [reflexivity | exact I]|]).
    apply (for_each_inv (fun s' => model s' = model s) _ (eval_batch FLAGS));
      [|exact Hm].
    intros b s' Hs'. split.
    + rewrite <- Hs'. apply (eval_batch_frame FLAGS b s').
    + destruct (eval_batch_events FLAGS b s') as (H1 & H2 & _).
      rewrite Hs' in H2. revert H1 H2.
      generalize (tr (eval_batch FLAGS b s')). intros l H1 H2.
      induction H1; inversion H2; subst; constructor; auto.
  - rewrite <- Hm.
    apply (for_each_inv (fun s' => model s' = model s1) (fun _ => True)
                        (eval_batch FLAGS)); [|reflexivity].
    intros b s' Hs'. split.
    + rewrite <- Hs'. apply (eval_batch_frame FLAGS b s').
    + apply Forall_forall. intros; exact I.
  - cbn [flat_map iteration app]. f_equal.
    rewrite <- (flat_map_nil (test_batches data s)).
    apply (for_each_view (fun _ => True) iteration (fun _ => [])
                         (eval_batch FLAGS)); [|exact I].
    intros b s' _. split; [exact I | apply eval_batch_events].
Qed.

(** C6. The trace of [main] is the trace of the training loop, then that
    of the evaluation loop, then the report.  The training part makes
    [nb_epochs] passes over the training set (none when the flag is not
    positive) and contains no evaluation step; the evaluation part makes one
    pass over the test set, contains no training step, and every model call
    and attack call in it is given the model as the last training step left
    it, which the evaluation never changes. *)
Theorem training_precedes_evaluation (FLAGS : Flags) (w : World) :
  let T := training FLAGS ld_mnist (setup w) in
  let E := evaluation FLAGS ld_mnist (st T) in
  tr (main FLAGS w) = tr T ++ tr E ++ tr (report (st E))
  /\ Forall (fun e => is_eval_event e = false) (tr T)
  /\ flat_map iteration (tr T)
     = repeat (train ld_mnist) (Z.to_nat (nb_epochs FLAGS))
  /\ Forall (fun e => is_train_event e = false /\ uses_model (model (st T)) e)
            (tr E)
  /\ flat_map iteration (tr E) = [test ld_mnist]
  /\ model (st E) = model (st T).
Proof.
  cbv zeta.
  destruct (evaluation_events FLAGS ld_mnist
              (st (training FLAGS ld_mnist (setup w)))) as (H1 & H2 & H3).
  split; [apply main_unfold|].
  split; [apply training_events|].
  split; [apply training_epochs|].
  split; [exact H1|]. split; [exact H3 | exact H2].
Qed.

(** ** Hyperparameters and the [eps] flag *)

Lemma mea_mim_eval_batch (FLAGS : Flags) (b : Tensor * Tensor) (s : State) :
  flat_map mea_mim_call (tr (eval_batch FLAGS b s)) = mea_mim_on (model s) b.1.
Proof. destruct b as [x y]. rewrite eval_batch_trace. reflexivity. Qed.

Lemma mea_mim_train_batch (FLAGS : Flags) (b : Tensor * Tensor) (s : State) :
  flat_map mea_mim_call (tr (train_batch FLAGS b s)) = [].
Proof.
  destruct b as [x y].
  destruct (train_batch_trace FLAGS x y s) as (x' & gv & loss & loss' & ->).
  destruct (adv_train FLAGS); reflexivity.
Qed.

(** The calls of the two attacks in a whole run: two per test batch, all
    with the trained model. *)
Lemma mea_mim_main (FLAGS : Flags) (w : World) :
  let T := training FLAGS ld_mnist (setup w) in
  flat_map mea_mim_call (tr (main FLAGS w))
  = flat_map (fun b => mea_mim_on (model (st T)) b.1)
             (test_batches ld_mnist (st T)).
Proof.
  cbv zeta. rewrite main_unfold. cbv zeta. rewrite !flat_map_app.
  rewrite (training_view_nil mea_mim_call); try reflexivity;
    [|apply mea_mim_train_batch].
  set (sT := st (training FLAGS ld_mnist (setup w))).
  destruct (report_run (st (evaluation FLAGS ld_mnist sT))) as [-> _].
  cbn [app]. rewrite app_nil_r.
  destruct (evaluation_unfold FLAGS ld_mnist sT) as [-> _].
  cbn [flat_map mea_mim_call app].
  apply (for_each_view (fun s' => model s' = model sT) mea_mim_call
           (fun b => mea_mim_on (model sT) b.1) (eval_batch FLAGS));
    [|reflexivity].
  intros b s' Hs'. split.
  - rewrite <- Hs'. apply (eval_batch_frame FLAGS b s').
  - rewrite <- Hs'. apply mea_mim_eval_batch.
Qed.

(** Loops with pointwise equal bodies run alike. *)
Lemma for_each_ext {A B} (body body' : A -> M B) (l : list A) :
  (forall a s, body a s = body' a s) ->
  forall s, for_each l body s = for_each l body' s.
Proof.
  intros Hb. induction l as [|a l IH]; intros s; [reflexivity|].
  change (for_each (a :: l) body s)
    with (mkRes (val (for_each l body (st (body a s))))
                (st (for_each l body (st (body a s))))
                (tr (body a s) ++ tr (for_each l body (st (body a s))))).
  rewrite Hb, IH. reflexivity.
Qed.

Lemma training_ignores_eps (FLAGS FLAGS' : Flags) (data : EasyDict) (s : State) :
  adv_train FLAGS = false -> adv_train FLAGS' = false ->
  nb_epochs FLAGS = nb_epochs FLAGS' ->
  training FLAGS data s = training FLAGS' data s.
Proof.
  intros H1 H2 Hn. unfold training. rewrite Hn.
  apply for_each_ext. intros epoch s1.
  change (train_epoch FLAGS data epoch s1)
    with (let loop := for_each (train_batches data s1) (train_batch FLAGS)
                        (set_world (ds_iter (train data) (world s1)).2 s1) in
          mkRes (val loop) (st loop)
                (EvProgbar progress_bar_train 60000 :: EvIterate (train data) :: tr loop)).
  change (train_epoch FLAGS' data epoch s1)
    with (let loop := for_each (train_batches data s1) (train_batch FLAGS')
                        (set_world (ds_iter (train data) (world s1)).2 s1) in
          mkRes (val loop) (st loop)
                (EvProgbar progress_bar_train 60000 :: EvIterate (train data) :: tr loop)).
  cbv zeta. rewrite (for_each_ext (train_batch FLAGS) (train_batch FLAGS')).
  - reflexivity.
  - intros [x y] s2. unfold train_batch. rewrite H1, H2. reflexivity.
Qed.

(** Without adversarial training the [eps] flag is not read before the
    evaluation loop, so it does not reach the model either: the call sites
    of the two attacks are given the same model and input. *)
Lemma mea_mim_call_sites_ignore_eps (FLAGS FLAGS' : Flags) (w : World) :
  adv_train FLAGS = false -> adv_train FLAGS' = false ->
  nb_epochs FLAGS = nb_epochs FLAGS' ->
  flat_map mea_mim_call (tr (main FLAGS w))
  = flat_map mea_mim_call (tr (main FLAGS' w)).
Proof.
  intros H1 H2 Hn. rewrite !mea_mim_main. cbv zeta.
  rewrite (training_ignores_eps FLAGS FLAGS' ld_mnist (setup w) H1 H2 Hn).
  reflexivity.
Qed.

(** C9. Of the five attack calls of an evaluation iteration that take a
    norm, [basic_iterative_method] is the only one given [2]; the other
    four are given [np.inf].  (The two Carlini-Wagner calls pass no norm.) *)
Theorem only_bim_is_called_with_l2_norm
        (FLAGS : Flags) (b : Tensor * Tensor) (s : State) :
  map (fun c => (c.1.1, argument c.1.1 c.2 "norm"))
      (attack_calls (tr (eval_batch FLAGS b s)))
  = [(fast_gradient_method, Some np_inf);
     (projected_gradient_descent, Some np_inf);
     (basic_iterative_method, Some (PyInt 2));
     (madry_et_al, Some np_inf);
     (momentum_iterative_method, Some np_inf);
     (carlini_wagner_l2, None);
     (carlini_wagner_l2_quantum, None)]
  /\ np_inf = PyFloat infinity
  /\ PyInt 2 <> np_inf.
Proof.
  split; [|split; [reflexivity | discriminate]].
  destruct b as [x y]. rewrite attack_calls_eval_batch. reflexivity.
Qed.

(** C2, as amended.  Every hyperparameter of every attack call is a literal
    of the script, except the [eps] of [fast_gradient_method],
    [projected_gradient_descent] and [basic_iterative_method], which is the
    value of the [eps] flag: in evaluation the seven calls carry the
    hyperparameters listed, and in training the one optional call carries
    those of line 92.  With those [eps] left out, the hyperparameters do not
    depend on the flags. *)
Theorem hyperparameters_are_literal_except_eps
        (FLAGS FLAGS' : Flags) (b : Tensor * Tensor) (s s' : State) :
  hyperparameters (tr (eval_batch FLAGS b s))
  = [(fast_gradient_method,
      mkArgs [PyFloat (eps FLAGS); PyFloat infinity] []);
     (projected_gradient_descent,
      mkArgs [PyFloat (eps FLAGS); PyFloat 0.01; PyInt 40; PyFloat infinity] []);
     (basic_iterative_method,
      mkArgs [PyFloat (eps FLAGS)]
             [("eps_iter", PyFloat 0.01); ("nb_iter", PyInt 40); ("norm", PyInt 2)]);
     (madry_et_al,
      mkArgs [] [("eps", PyFloat 0.01); ("eps_iter", PyFloat 0.01);
                 ("nb_iter", PyInt 40); ("norm", PyFloat infinity)]);
     (momentum_iterative_method,
      mkArgs [] [("eps", PyFloat 0.01); ("eps_iter", PyFloat 0.01);
                 ("nb_iter", PyInt 40); ("norm", PyFloat infinity)]);
     (carlini_wagner_l2,
      mkArgs [] [("targeted", PyBool false); ("max_iterations", PyInt 50)]);
     (carlini_wagner_l2_quantum,
      mkArgs [] [("targeted", PyBool false); ("max_iterations", PyInt 10)])]
  /\ hyperparameters (tr (train_batch FLAGS b s))
     = (if adv_train FLAGS
        then [(projected_gradient_descent,
               mkArgs [PyFloat (eps FLAGS); PyFloat 0.01; PyInt 40; PyFloat infinity] [])]
        else [])
  /\ map without_eps (hyperparameters (tr (eval_batch FLAGS b s)))
     = map without_eps (hyperparameters (tr (eval_batch FLAGS' b s'))).
Proof.
  destruct b as [x y]. unfold hyperparameters.
  rewrite !attack_calls_eval_batch.
  split; [reflexivity|]. split; [|reflexivity].
  destruct (train_batch_trace FLAGS x y s) as (x' & gv & loss & loss' & ->).
  destruct (adv_train FLAGS); reflexivity.
Qed.

(** ** Runs that stop at an attack call *)

Lemma executed_complete (t : list Event) :
  completes t = true -> executed t = t.
Proof.
  induction t as [|e t IH]; [reflexivity|].
  change (completes (e :: t)) with (negb (raising e) && completes t).
  cbn [executed]. intros H. apply andb_true_iff in H as [H1 H2].
  destruct (raising e); [discriminate|]. rewrite (IH H2). reflexivity.
Qed.

Lemma completes_app (t1 t2 : list Event) :
  completes (t1 ++ t2) = completes t1 && completes t2.
Proof. unfold completes. apply forallb_app. Qed.

Lemma executed_app (t1 t2 : list Event) :
  executed (t1 ++ t2) = if completes t1 then t1 ++ executed t2 else executed t1.
Proof.
  induction t1 as [|e t1 IH]; [reflexivity|].
  change (completes (e :: t1)) with (negb (raising e) && completes t1).
  cbn [app executed]. destruct (raising e); [reflexivity|].
  cbn [negb andb]. rewrite IH. destruct (completes t1); reflexivity.
Qed.




(** ** Runs of the loops as a whole *)

(** A relation between entry state, trace and exit state that holds of the
    empty run, composes, and holds of every run of the body, holds of the
    loop. *)
Lemma for_each_run {A B} (Q : State -> list Event -> State -> Prop)
      (body : A -> M B) (l : list A) :
  (forall s, Q s [] s) ->
  (forall s t1 s1 t2 s2, Q s t1 s1 -> Q s1 t2 s2 -> Q s (t1 ++ t2) s2) ->
  (forall a s, Q s (tr (body a s)) (st (body a s))) ->
  forall s, Q s (tr (for_each l body s)) (st (for_each l body s)).
Proof.
  intros Hr Ht Hb. induction l as [|a l IH]; intros s.
  - apply Hr.
  - rewrite tr_for_each_cons, st_for_each_cons.
    eapply Ht; [apply Hb | apply IH].
Qed.

Section Runs.

Variable Q : State -> list Event -> State -> Prop.
Variable FLAGS : Flags.
Variable data : EasyDict.

Hypothesis Q_nil : forall s, Q s [] s.
Hypothesis Q_app :
  forall s t1 s1 t2 s2, Q s t1 s1 -> Q s1 t2 s2 -> Q s (t1 ++ t2) s2.

Lemma training_run :
  (forall s, Q s [EvProgbar progress_bar_train 60000; EvIterate (train data)]
               (set_world (ds_iter (train data) (world s)).2 s)) ->
  (forall b s, Q s (tr (train_batch FLAGS b s)) (st (train_batch FLAGS b s))) ->
  forall s, Q s (tr (training FLAGS data s)) (st (training FLAGS data s)).
Proof.
  intros Hh Hb. unfold training. apply for_each_run; [exact Q_nil | exact Q_app |].
  intros epoch s.
  destruct (train_epoch_unfold FLAGS data epoch s) as [-> ->].
  eapply (Q_app _ [_; _]); [apply Hh|].
  apply for_each_run; assumption.
Qed.

Lemma evaluation_run :
  (forall s, Q s [EvProgbar progress_bar_test 10000; EvIterate (test data)]
               (set_world (ds_iter (test data) (world s)).2 s)) ->
  (forall b s, Q s (tr (eval_batch FLAGS b s)) (st (eval_batch FLAGS b s))) ->
  forall s, Q s (tr (evaluation FLAGS data s)) (st (evaluation FLAGS data s)).
Proof.
  intros Hh Hb s.
  destruct (evaluation_unfold FLAGS data s) as [-> ->].
  eapply (Q_app _ [_; _]); [apply Hh|].
  apply for_each_run; assumption.
Qed.

End Runs.

Lemma main_state (FLAGS : Flags) (w : World) :
  st (main FLAGS w)
  = st (evaluation FLAGS ld_mnist (st (training FLAGS ld_mnist (setup w)))).
Proof.
  unfold main. cbv zeta. rewrite !st_bind. apply report_run.
Qed.

Lemma main_run (Q : State -> list Event -> State -> Prop) (FLAGS : Flags) :
  (forall s, Q s [] s) ->
  (forall s t1 s1 t2 s2, Q s t1 s1 -> Q s1 t2 s2 -> Q s (t1 ++ t2) s2) ->
  (forall s, Q s [EvProgbar progress_bar_train 60000; EvIterate (train ld_mnist)]
               (set_world (ds_iter (train ld_mnist) (world s)).2 s)) ->
  (forall b s, Q s (tr (train_batch FLAGS b s)) (st (train_batch FLAGS b s))) ->
  (forall s, Q s [EvProgbar progress_bar_test 10000; EvIterate (test ld_mnist)]
               (set_world (ds_iter (test ld_mnist) (world s)).2 s)) ->
  (forall b s, Q s (tr (eval_batch FLAGS b s)) (st (eval_batch FLAGS b s))) ->
  (forall s, Q s (tr (report s)) s) ->
  forall w, Q (setup w) (tr (main FLAGS w)) (st (main FLAGS w)).
Proof.
  intros Hn Ha Hth Htb Heh Heb Hr w.
  rewrite main_unfold. cbv zeta.
  set (T := training FLAGS ld_mnist (setup w)).
  set (E := evaluation FLAGS ld_mnist (st T)).
  rewrite main_state. fold T. fold E.
  pose proof (training_run Q FLAGS ld_mnist Hn Ha Hth Htb (setup w)) as HT.
  pose proof (evaluation_run Q FLAGS ld_mnist Hn Ha Heh Heb (st T)) as HE.
  exact (Ha _ _ _ _ _ HT (Ha _ _ _ _ _ HE (Hr _))).
Qed.

Lemma train_batch_state (FLAGS : Flags) (b : Tensor * Tensor) (s : State) :
  let s' := st (train_batch FLAGS b s) in
  test_acc s' = test_acc s /\ layers (model s') = layers (model s).
Proof.
  destruct b as [x y]. unfold train_batch.
  destruct (adv_train FLAGS); split; reflexivity.
Qed.

(** ** What the loops leave alone *)

(** X1. The training loop never touches an accuracy metric: whatever the
    flags and the data, the eight metrics are after training what they were
    before, so the evaluation loop of [main] starts with every one of them
    in its initial state. *)
Theorem training_leaves_accuracy_metrics
        (FLAGS : Flags) (data : EasyDict) (s : State) (w : World) (m : Metric) :
  test_acc (st (training FLAGS data s)) = test_acc s
  /\ test_acc (st (training FLAGS ld_mnist (setup w))) m = acc_init.
Proof.
  assert (H : forall d s0, test_acc (st (training FLAGS d s0)) = test_acc s0).
  { intros d s0.
    apply (training_run (fun s1 _ s2 => test_acc s2 = test_acc s1)).
    - reflexivity.
    - intros ? ? ? ? ? H1 H2. rewrite H2. exact H1.
    - reflexivity.
    - intros b s1. apply train_batch_state. }
  split; [apply H|].
  exact (f_equal (fun f => f m) (H ld_mnist (setup w))).
Qed.

(** X2. The architecture is fixed for the whole run: every model call and
    every attack call of [main], in training and in evaluation, is given a
    model with the seven layers of [__init__], and so is the model [main]
    ends with.  Only the variables change. *)
Theorem architecture_is_fixed (FLAGS : Flags) (w : World) :
  layers (model (st (main FLAGS w))) = layers (Net_init [])
  /\ Forall (same_architecture (Net_init [])) (tr (main FLAGS w)).
Proof.
  assert (H : layers (model (st (main FLAGS w))) = layers (model (setup w))
              /\ Forall (same_architecture (model (setup w))) (tr (main FLAGS w))).
  { apply (main_run (fun s t s' =>
             layers (model s') = layers (model s)
             /\ Forall (same_architecture (model s)) t)).
    - intros s. split; [reflexivity | constructor].
    - intros s t1 s1 t2 s2 [H1 F1] [H2 F2]. split; [congruence|].
      apply Forall_app. split; [exact F1|].
      eapply Forall_impl; [|exact F2].
      intros e. unfold same_architecture. rewrite H1. trivial.
    - intros s. split; [reflexivity | repeat constructor].
    - intros [x y] s. split; [apply (train_batch_state FLAGS (x, y) s)|].
      destruct (train_batch_trace FLAGS x y s) as (x' & gv & loss & loss' & ->).
      destruct (adv_train FLAGS); repeat constructor.
    - intros s. split; [reflexivity | repeat constructor].
    - intros [x y] s. split.
      + destruct (eval_batch_frame FLAGS (x, y) s) as [-> _]. reflexivity.
      + rewrite eval_batch_trace.
        generalize (val (eval_batch FLAGS (x, y) s)). intros v.
        repeat constructor.
    - intros s. split; [reflexivity|].
      destruct (report_run s) as [-> _]. repeat constructor. }
  exact H.
Qed.

(** X3. The evaluation loop and the report are read-only on everything that
    training produced: the model (its variables included), the optimizer
    slots and [train_loss] are at the end of [main] what the last training
    step left. *)
Theorem evaluation_and_report_keep_training_result (FLAGS : Flags) (w : World) :
  let T := training FLAGS ld_mnist (setup w) in
  model (st (main FLAGS w)) = model (st T)
  /\ slots (st (main FLAGS w)) = slots (st T)
  /\ train_loss (st (main FLAGS w)) = train_loss (st T).
Proof.
  cbv zeta.
  set (T := training FLAGS ld_mnist (setup w)).
  rewrite main_state. fold T.
  apply (evaluation_run
           (fun s _ s' => model s' = model s /\ slots s' = slots s
                          /\ train_loss s' = train_loss s)).
  - intros s. repeat split.
  - intros s t1 s1 t2 s2 (H1 & H2 & H3) (H4 & H5 & H6).
    repeat split; congruence.
  - intros s. repeat split.
  - intros b s. apply eval_batch_frame.
Qed.

(** ** The metrics are what the trace says *)


(** X9. Every accuracy printed by the report is computed from the updates
    of the evaluation loop alone: at the end of [main] each metric holds
    exactly the updates the trace records for it, in order, applied to a
    fresh metric; updates of one metric never land in another. *)
Theorem accuracy_metrics_hold_their_own_updates
        (FLAGS : Flags) (w : World) (m : Metric) :
  test_acc (st (main FLAGS w)) m
  = fold_left (record_accuracy m) (tr (main FLAGS w)) acc_init.
Proof.
  apply (main_run (fun s t s' =>
           test_acc s' m = fold_left (record_accuracy m) t (test_acc s m)) FLAGS).
  - reflexivity.
  - intros s t1 s1 t2 s2 H1 H2. rewrite fold_left_app, <- H1. exact H2.
  - reflexivity.
  - intros [x y] s.
    destruct (train_batch_state FLAGS (x, y) s) as [-> _].
    destruct (train_batch_trace FLAGS x y s) as (x' & gv & loss & loss' & ->).
    destruct (adv_train FLAGS); reflexivity.
  - reflexivity.
  - intros [x y] s.
    destruct (eval_batch_metrics FLAGS x y s m) as [-> _].
    rewrite eval_batch_trace.
    generalize (val (eval_batch FLAGS (x, y) s)). intros v.
    destruct m; reflexivity.
  - intros s. destruct (report_run s) as [-> _]. reflexivity.
Qed.

(** ** Counting the steps of training *)


(** X6. Training makes one optimizer step and one loss record per batch it
    processes, all with the Adam optimizer of line 63, and advances its
    progress bar by the size of the batch it trained on (the adversarial
    one under [adv_train]). *)
Theorem one_optimizer_step_per_training_batch
        (FLAGS : Flags) (data : EasyDict) (s : State) :
  let t := tr (training FLAGS data s) in
  flat_map gradient_step t
  = map (fun _ => Adam 0.001%float) (flat_map (progress progress_bar_train) t)
  /\ length (flat_map loss_record t)
     = length (flat_map (progress progress_bar_train) t)
  /\ flat_map (progress progress_bar_train) t
     = map shape0 (flat_map model_input t).
Proof.
  cbv zeta.
  apply (training_run
           (fun _ t _ =>
              flat_map gradient_step t
              = map (fun _ => Adam 0.001%float)
                    (flat_map (progress progress_bar_train) t)
              /\ length (flat_map loss_record t)
                 = length (flat_map (progress progress_bar_train) t)
              /\ flat_map (progress progress_bar_train) t
                 = map shape0 (flat_map model_input t))).
  - intros _. repeat split.
  - intros _ t1 _ t2 _ (H1 & H2 & H3) (H4 & H5 & H6).
    rewrite !flat_map_app, !map_app, !length_app.
    rewrite H1, H2, H3, H4, H5, H6. repeat split.
  - intros _. repeat split.
  - intros [x y] s1.
    destruct (train_batch_trace FLAGS x y s1) as (x' & gv & loss & loss' & ->).
    destruct (adv_train FLAGS); repeat split.
Qed.

(** The attack call sites of training, every call taken to return. *)
Lemma training_attack_call_sites (FLAGS : Flags) (data : EasyDict) (s : State) :
  let t := tr (training FLAGS data s) in
  hyperparameters t
  = if adv_train FLAGS
    then map (fun _ => (projected_gradient_descent, pgd_args FLAGS))
             (flat_map gradient_step t)
    else [].
Proof.
  cbv zeta.
  apply (training_run
           (fun _ t _ =>
              hyperparameters t
              = if adv_train FLAGS
                then map (fun _ => (projected_gradient_descent, pgd_args FLAGS))
                         (flat_map gradient_step t)
                else [])).
  - intros _. destruct (adv_train FLAGS); reflexivity.
  - intros _ t1 _ t2 _ H1 H2. unfold hyperparameters, attack_calls in *.
    rewrite !flat_map_app, map_app, H1, H2.
    destruct (adv_train FLAGS); [rewrite map_app|]; reflexivity.
  - intros _. destruct (adv_train FLAGS); reflexivity.
  - intros [x y] s1.
    destruct (train_batch_trace FLAGS x y s1) as (x' & gv & loss & loss' & ->).
    destruct (adv_train FLAGS); reflexivity.
Qed.

(** ** The clean accuracy *)

(** The value of a state component after a loop whose body updates it by a
    function of the loop variable. *)
Lemma for_each_fold {A B S} (I : State -> Prop) (p : State -> S)
      (g : S -> A -> S) (body : A -> M B) (l : list A) :
  (forall a s, I s -> I (st (body a s)) /\ p (st (body a s)) = g (p s) a) ->
  forall s, I s -> p (st (for_each l body s)) = fold_left g l (p s).
Proof.
  intros Hb. induction l as [|a l IH]; intros s Hs; [reflexivity|].
  rewrite st_for_each_cons. destruct (Hb a s Hs) as [H1 H2].
  rewrite (IH _ H1), H2. reflexivity.
Qed.

Lemma evaluation_clean_fold (FLAGS : Flags) (data : EasyDict) (s : State) :
  test_acc (st (evaluation FLAGS data s)) test_acc_clean
  = fold_left (fun a b => acc_update a b.2 (Net_call (model s) b.1))
              (test_batches data s) (test_acc s test_acc_clean).
Proof.
  destruct (evaluation_unfold FLAGS data s) as [_ ->]. cbv zeta.
  set (s1 := set_world _ s).
  change (test_acc s test_acc_clean) with (test_acc s1 test_acc_clean).
  apply (for_each_fold (fun s' => model s' = model s)
                       (fun s' => test_acc s' test_acc_clean)); [|reflexivity].
  intros [x y] s' Hs'. split.
  - rewrite <- Hs'. apply (eval_batch_frame FLAGS (x, y) s').
  - destruct (eval_batch_metrics FLAGS x y s' test_acc_clean) as [-> ->].
    rewrite eval_batch_locals, Hs'. reflexivity.
Qed.

(** X8. When no attack call of the evaluation loop raises, the clean
    accuracy it ends with is the accuracy of the model the evaluation
    starts with over all test batches, unperturbed, in the order the test
    set yields them.  Between two such evaluations it depends neither on the
    attacks (their outputs and the random numbers they draw) nor on the
    flags. *)
Theorem clean_accuracy_ignores_attacks
        (FLAGS FLAGS' : Flags) (data : EasyDict) (s : State) :
  completes (tr (evaluation FLAGS data s)) = true ->
  completes (tr (evaluation FLAGS' data s)) = true ->
  test_acc (st (evaluation FLAGS data s)) test_acc_clean
  = fold_left (fun a b => acc_update a b.2 (Net_call (model s) b.1))
              (test_batches data s) (test_acc s test_acc_clean)
  /\ test_acc (st (evaluation FLAGS data s)) test_acc_clean
     = test_acc (st (evaluation FLAGS' data s)) test_acc_clean.
Proof.
  intros _ _. rewrite !evaluation_clean_fold. split; reflexivity.
Qed.


(** ** Edge cases *)

(** X4. When [nb_epochs] is zero or negative the training loop does
    nothing at all (no call, no change of state), and [main] evaluates the
    freshly built, untrained model. *)
Theorem no_training_without_epochs
        (FLAGS : Flags) (data : EasyDict) (s : State) (w : World) :
  nb_epochs FLAGS <= 0 ->
  training FLAGS data s = mkRes tt s []
  /\ model (st (main FLAGS w)) = Net_init (build_variables w).1.
Proof.
  intros Hn.
  assert (H : forall d s0, training FLAGS d s0 = mkRes tt s0 []).
  { intros d s0. unfold training, range.
    replace (Z.to_nat (nb_epochs FLAGS)) with 0%nat by lia. reflexivity. }
  split; [apply H|].
  rewrite main_state.
  destruct (evaluation_events FLAGS ld_mnist
              (st (training FLAGS ld_mnist (setup w)))) as (_ & -> & _).
  rewrite H. reflexivity.
Qed.

(** X11. When the test set yields no batch, the evaluation loop makes no
    model call and no attack call and leaves every accuracy metric as it
    was; the report then prints the results of metrics that were never
    updated. *)
Theorem empty_test_set_updates_no_metric
        (FLAGS : Flags) (data : EasyDict) (s : State) :
  test_batches data s = [] ->
  tr (evaluation FLAGS data s)
  = [EvProgbar progress_bar_test 10000; EvIterate (test data)]
  /\ test_acc (st (evaluation FLAGS data s)) = test_acc s.
Proof.
  intros H. destruct (evaluation_unfold FLAGS data s) as [-> ->].
  cbv zeta. rewrite H. split; reflexivity.
Qed.

(** X13. Without adversarial training the [eps] flag reaches nothing that
    training produces and not the clean accuracy either: two runs that
    differ in [eps] only, and in which no attack call raises, end with the
    same model, the same optimizer slots, the same [train_loss] and the same
    clean accuracy. *)
Theorem eps_flag_only_matters_to_attacks (FLAGS FLAGS' : Flags) (w : World) :
  adv_train FLAGS = false -> adv_train FLAGS' = false ->
  nb_epochs FLAGS = nb_epochs FLAGS' ->
  completes (tr (main FLAGS w)) = true ->
  completes (tr (main FLAGS' w)) = true ->
  model (st (main FLAGS w)) = model (st (main FLAGS' w))
  /\ slots (st (main FLAGS w)) = slots (st (main FLAGS' w))
  /\ train_loss (st (main FLAGS w)) = train_loss (st (main FLAGS' w))
  /\ test_acc (st (main FLAGS w)) test_acc_clean
     = test_acc (st (main FLAGS' w)) test_acc_clean.
Proof.
  intros H1 H2 Hn _ _. rewrite !main_state.
  rewrite (training_ignores_eps FLAGS FLAGS' ld_mnist (setup w) H1 H2 Hn).
  set (sT := st (training FLAGS' ld_mnist (setup w))).
  rewrite !evaluation_clean_fold.
  assert (F : forall F0, model (st (evaluation F0 ld_mnist sT)) = model sT
                         /\ slots (st (evaluation F0 ld_mnist sT)) = slots sT
                         /\ train_loss (st (evaluation F0 ld_mnist sT))
                            = train_loss sT).
  { intros F0.
    apply (evaluation_run
             (fun s _ s' => model s' = model s /\ slots s' = slots s
                            /\ train_loss s' = train_loss s)).
    - intros s. repeat split.
    - intros s t1 s1 t2 s2 (A1 & A2 & A3) (A4 & A5 & A6).
      repeat split; congruence.
    - intros s. repeat split.
    - intros b s. apply eval_batch_frame. }
  destruct (F FLAGS) as (-> & -> & ->). destruct (F FLAGS') as (-> & -> & ->).
  repeat split.
Qed.

(** ** What a run executes when an attack may raise *)


(** C3, as amended.  An iteration of the training loop on a batch [(x, y)]
    makes at most one attack call.  With [adv_train] set it is
    [projected_gradient_descent(model, x, FLAGS.eps, 0.01, 40, np.inf)] and
    it comes first; when it returns, its output replaces [x] in
    [train_step] and in the progress bar; when it raises, the iteration
    stops there and [train_step] is not called.  With [adv_train] unset
    there is no attack call and [train_step] receives [x] itself. *)
Theorem train_batch_augments_when_pgd_returns
        (FLAGS : Flags) (x y : Tensor) (s : State) :
  let call := EvAttack projected_gradient_descent (model s) x (pgd_args FLAGS) in
  let adv := attack projected_gradient_descent (model s) x (pgd_args FLAGS) (world s) in
  let stops := adv_train FLAGS
               && attack_raises projected_gradient_descent (model s) x (pgd_args FLAGS) in
  let x' := if adv_train FLAGS then adv.1 else x in
  let s1 := if adv_train FLAGS then set_world adv.2 s else s in
  let r := train_batch FLAGS (x, y) s in
  attack_calls (executed (tr r))
  = (if adv_train FLAGS then [(projected_gradient_descent, x, pgd_args FLAGS)] else [])
  /\ (length (attack_calls (executed (tr r))) <= 1)%nat
  /\ completes (tr r) = negb stops
  /\ executed (tr r)
     = (if stops then [call]
        else (if adv_train FLAGS then [call] else [])
             ++ tr (train_step x' y s1)
             ++ [EvProgbarAdd progress_bar_train (shape0 x')
                   [("loss", mean_result (train_loss (st (train_step x' y s1))))]])
  /\ st r = st (train_step x' y s1).
Proof.
  cbv zeta.
  destruct (train_batch_call_sites FLAGS x y s) as (_ & _ & Ht & Hs).
  cbv zeta in Ht, Hs. rewrite Ht, Hs. clear Ht Hs.
  destruct (adv_train FLAGS); cbn [andb].
  - set (adv := attack projected_gradient_descent (model s) x (pgd_args FLAGS) (world s)).
    set (s1 := set_world adv.2 s).
    set (tail := tr (train_step adv.1 y s1) ++ _).
    assert (Hc : completes tail = true) by reflexivity.
    change ([EvAttack projected_gradient_descent (model s) x (pgd_args FLAGS)] ++ tail)
      with (EvAttack projected_gradient_descent (model s) x (pgd_args FLAGS) :: tail).
    cbn [executed completes forallb raising].
    fold (completes tail). rewrite Hc, (executed_complete _ Hc).
    destruct (attack_raises projected_gradient_descent (model s) x (pgd_args FLAGS));
      repeat split; cbn; try reflexivity; lia.
  - cbn [app].
    set (tail := tr (train_step x y s) ++ _).
    assert (Hc : completes tail = true) by reflexivity.
    rewrite Hc, (executed_complete _ Hc).
    repeat split; try reflexivity. subst tail. compute. lia.
Qed.





(** X10. Without adversarial training, two runs that differ in the [eps]
    flag only and in which no attack call raises make the same calls of
    [madry_et_al] and [momentum_iterative_method], model and input
    included. *)
Theorem eps_flag_invisible_without_adv_train (FLAGS FLAGS' : Flags) (w : World) :
  adv_train FLAGS = false -> adv_train FLAGS' = false ->
  nb_epochs FLAGS = nb_epochs FLAGS' ->
  completes (tr (main FLAGS w)) = true ->
  completes (tr (main FLAGS' w)) = true ->
  flat_map mea_mim_call (executed (tr (main FLAGS w)))
  = flat_map mea_mim_call (executed (tr (main FLAGS' w))).
Proof.
  intros H1 H2 Hn C1 C2.
  rewrite (executed_complete _ C1), (executed_complete _ C2).
  apply mea_mim_call_sites_ignore_eps; assumption.
Qed.

Lemma hyperparameters_app (t1 t2 : list Event) :
  hyperparameters (t1 ++ t2) = hyperparameters t1 ++ hyperparameters t2.
Proof. unfold hyperparameters, attack_calls. rewrite flat_map_app, map_app. reflexivity. Qed.

(** X7. The only attack the training loop ever calls is
    [projected_gradient_descent], always with the hyperparameters of line
    92, and never when [adv_train] is unset.  With [adv_train] set there is
    one such call per optimizer step, plus the call that raised when the
    run stopped at one. *)
Theorem training_only_calls_pgd (FLAGS : Flags) (data : EasyDict) (s : State) :
  let t := tr (training FLAGS data s) in
  let calls := hyperparameters (executed t) in
  calls = map (fun _ => (projected_gradient_descent, pgd_args FLAGS)) calls
  /\ length calls
     = if adv_train FLAGS
       then (length (flat_map gradient_step (executed t))
             + if completes t then 0 else 1)%nat
       else 0%nat.
Proof.
  cbv zeta.
  apply (training_run
           (fun _ t _ =>
              hyperparameters (executed t)
              = map (fun _ => (projected_gradient_descent, pgd_args FLAGS))
                    (hyperparameters (executed t))
              /\ length (hyperparameters (executed t))
                 = if adv_train FLAGS
                   then (length (flat_map gradient_step (executed t))
                         + if completes t then 0 else 1)%nat
                   else 0%nat)).
  - intros _. destruct (adv_train FLAGS); split; reflexivity.
  - intros _ t1 _ t2 _ [A1 A2] [B1 B2].
    rewrite executed_app, completes_app.
    destruct (completes t1) eqn:C1; [|split; assumption].
    rewrite (executed_complete _ C1) in A1, A2.
    rewrite hyperparameters_app, flat_map_app, map_app, !length_app.
    rewrite <- A1, <- B1, A2, B2. split; [reflexivity|].
    cbn [andb]. destruct (adv_train FLAGS); lia.
  - intros _. destruct (adv_train FLAGS); split; reflexivity.
  - intros [x y] s1.
    destruct (train_batch_trace FLAGS x y s1) as (x' & gv & loss & loss' & ->).
    destruct (adv_train FLAGS); [|split; reflexivity].
    cbn [app executed completes forallb raising].
    destruct (attack_raises projected_gradient_descent (model s1) x (pgd_args FLAGS));
      split; reflexivity.
Qed.

End Properties.

(** * The script on concrete inputs *)

(** C2, as stated, fails: the hyperparameters of the attack calls depend on
    the [eps] flag.  Evaluating one batch under the default flags
    ([eps = 0.3]) and under [eps = 0.5] passes different hyperparameters to
    [fast_gradient_method]. *)
Lemma hyperparameters_depend_on_eps_flag :
  hyperparameters (tr (Toy.eval_batch default_flags (0, 138) Toy.start))
  <> hyperparameters (tr (Toy.eval_batch Toy.eps_half (0, 138) Toy.start)).
Proof.
  intros H. apply (f_equal Toy.first_eps) in H.
  apply (f_equal (fun f => PrimFloat.ltb f 0.4%float)) in H.
  vm_compute in H. discriminate H.
Qed.

(** A run of the whole script on the small instance, with one epoch: the
    clean batch is classified correctly, every attacked batch is not. *)
Example toy_report :
  flat_map printed (tr (Toy.main Toy.one_epoch 0))
  = ["test acc on clean examples (%): 100.000";
     "test acc on FGM adversarial examples (%): 0.000";
     "test acc on PGD adversarial examples (%): 0.000";
     "test acc on BIM adversarial examples (%): 0.000";
     "test acc on MEA adversarial examples (%): 0.000";
     "test acc on MIM adversarial examples (%): 0.000";
     "test acc on CW (original) adversarial examples (%): 0.000";
     "test acc on CW (quantum) adversarial examples (%): 0.000"].
Proof. vm_compute. reflexivity. Qed.

(** One epoch over the two training batches makes two optimizer steps. *)
Example toy_training_steps :
  length (flat_map gradient_step (tr (Toy.main Toy.one_epoch 0))) = 2%nat
  /\ trainable_variables (model (st (Toy.main Toy.one_epoch 0))) = [-2].
Proof. vm_compute. split; reflexivity. Qed.

(** No epoch at all when [nb_epochs] is negative: the evaluation sees the
    initial variables. *)
Example toy_no_training :
  trainable_variables
    (model (st (Toy.main {| nb_epochs := -3; eps := 0.3%float; adv_train := true |} 0)))
  = [0].
Proof. vm_compute. reflexivity. Qed.

(** The default flags and [eps = 0.5] make the same calls of [madry_et_al]
    and [momentum_iterative_method]. *)
Example toy_eps_invisible :
  flat_map mea_mim_call (Toy.executed (tr (Toy.main default_flags 0)))
  = flat_map mea_mim_call (Toy.executed (tr (Toy.main Toy.eps_half 0))).
Proof.
  apply (@eps_flag_invisible_without_adv_train
           Toy.framework Toy.attacks Toy.checks);
    reflexivity.
Defined.

(** With [nb_epochs = 0] the small instance is evaluated untrained. *)
Lemma toy_no_epochs :
  nb_epochs Toy.no_epochs <= 0
  /\ Toy.training Toy.no_epochs Toy.no_data Toy.start = mkRes tt Toy.start []
  /\ model (st (Toy.main Toy.no_epochs 0)) = @Net_init Toy.framework [0].
Proof.
  split; [cbn; lia|].
  apply (@no_training_without_epochs Toy.framework Toy.attacks
           Toy.no_epochs Toy.no_data Toy.start 0).
  cbn. lia.
Defined.

(** An empty test set on the small instance. *)
Lemma toy_empty_test_set :
  test_batches Toy.no_data Toy.start = []
  /\ tr (Toy.evaluation default_flags Toy.no_data Toy.start)
     = [EvProgbar progress_bar_test 10000; EvIterate (test Toy.no_data)]
  /\ test_acc (st (Toy.evaluation default_flags Toy.no_data Toy.start))
     = test_acc Toy.start.
Proof.
  split; [reflexivity|].
  apply (@empty_test_set_updates_no_metric Toy.framework Toy.attacks
           default_flags Toy.no_data Toy.start).
  reflexivity.
Defined.

(** The default flags and [eps = 0.5] train the same model and measure the
    same clean accuracy on the small instance. *)
Lemma toy_eps_only_matters_to_attacks :
  model (st (Toy.main default_flags 0)) = model (st (Toy.main Toy.eps_half 0))
  /\ slots (st (Toy.main default_flags 0)) = slots (st (Toy.main Toy.eps_half 0))
  /\ train_loss (st (Toy.main default_flags 0))
     = train_loss (st (Toy.main Toy.eps_half 0))
  /\ test_acc (st (Toy.main default_flags 0)) test_acc_clean
     = test_acc (st (Toy.main Toy.eps_half 0)) test_acc_clean.
Proof.
  apply (@eps_flag_only_matters_to_attacks
           Toy.framework Toy.attacks Toy.checks);
    reflexivity.
Defined.

(** ** Runs that stop at [projected_gradient_descent]

    With [eps = 0.005] the call of line 106 is given a step size 0.01 larger
    than [eps] and raises, in the first test batch. *)


(** C3, as stated, fails: with [adv_train] set and [eps = 0.005] the
    iteration consists of the attack call of line 92 alone; [train_step] is
    not called. *)
Lemma small_eps_stops_adversarial_training :
  adv_train Toy.adv_small = true
  /\ Toy.executed (tr (Toy.train_batch Toy.adv_small (255, 1) Toy.start))
     = [EvAttack projected_gradient_descent (model Toy.start) 255
                 (pgd_args Toy.adv_small)].
Proof. vm_compute. split; reflexivity. Qed.






Lemma toy_clean_accuracy :
  test_acc (st (Toy.evaluation default_flags ld_mnist Toy.start)) test_acc_clean
  = test_acc (st (Toy.evaluation Toy.eps_half ld_mnist Toy.start)) test_acc_clean.
Proof.
  apply (@clean_accuracy_ignores_attacks
           Toy.framework Toy.attacks Toy.checks
           default_flags Toy.eps_half ld_mnist Toy.start);
    reflexivity.
Defined.


(** With adversarial training the [eps] flag reaches the model, and through
    it the calls of [madry_et_al] and [momentum_iterative_method]: the runs
    with [eps = 0.3] and [eps = 0.5] both reach their end, with different
    variables, and give the two attacks different models. *)
Example adversarial_training_carries_eps_to_the_model :
  ToyAdv.completes (tr (ToyAdv.main (ToyAdv.adv 0.3) 0)) = true
  /\ ToyAdv.completes (tr (ToyAdv.main (ToyAdv.adv 0.5) 0)) = true
  /\ trainable_variables (model (st (ToyAdv.main (ToyAdv.adv 0.3) 0))) = [-276]
  /\ trainable_variables (model (st (ToyAdv.main (ToyAdv.adv 0.5) 0))) = [-278]
  /\ flat_map mea_mim_call (ToyAdv.executed (tr (ToyAdv.main (ToyAdv.adv 0.3) 0)))
     <> flat_map mea_mim_call (ToyAdv.executed (tr (ToyAdv.main (ToyAdv.adv 0.5) 0))).
Proof.
  repeat split; try (vm_compute; reflexivity).
  intros H.
  apply (f_equal (fun t => flat_map
            (fun e => match event_model e with
                      | Some m => trainable_variables m
                      | None => []
                      end) t)) in H.
  vm_compute in H. discriminate H.
Qed.
